(** * KYC_Agent: the identity-verification front end

    A shallow embedding of the client-side verification flow:

    - [FaceVerification] (Frontend/src/components/FaceDetection/FaceDetection.tsx):
      camera start, presence detection, the liveness interval, document upload
      with KYC extraction, and the final face match;
    - [KYCForm] (components/KYC/KYCForm.tsx): the form that accumulates the
      extracted fields;
    - [ManualKYC] and [KYCAgent]: the two parents that host the component;
    - [kycApi], [VerificationStatus] and [SmartKYCFlow]: the calls to the
      back end, the status card and the choice between agent and form.

    React state is a record, a handler is a state transformer that also
    produces the list of effects it performed (network requests, alerts,
    callbacks to the parent), and whatever a handler awaits from the outside
    (a camera stream, an HTTP reply, a canvas snapshot) is an explicit
    argument of the handler. *)

From Stdlib Require Import Bool List String Ascii Arith NArith Lia.
From Stdlib Require Import DecimalString.
Import ListNotations.
Open Scope string_scope.
Open Scope list_scope.

Set Implicit Arguments.

(** ** JavaScript values used by the component *)

Module Js.

(** Strings are byte strings (UTF-8).  [toLowerCase] is the ASCII case
    mapping and leaves every other byte alone: the lower-casing of a
    character outside ASCII never yields one of the letters the component
    looks for in a lower-cased text. *)
Definition lowerChar (c : ascii) : ascii :=
  let n := nat_of_ascii c in
  if ((65 <=? n) && (n <=? 90))%nat then ascii_of_nat (n + 32) else c.

Fixpoint toLowerCase (s : string) : string :=
  match s with
  | EmptyString => EmptyString
  | String c t => String (lowerChar c) (toLowerCase t)
  end.

(** [s.startsWith(p)] *)
Fixpoint startsWith (s p : string) {struct p} : bool :=
  match p, s with
  | EmptyString, _ => true
  | String a p', String b s' => Ascii.eqb a b && startsWith s' p'
  | String _ _, EmptyString => false
  end.

(** [s.includes(sub)]: [sub] occurs at some position of [s]. *)
Fixpoint includes (s sub : string) : bool :=
  if startsWith s sub then true
  else match s with
       | EmptyString => false
       | String _ t => includes t sub
       end.

(** A property that holds a string, or is [undefined]/[null]. *)
Definition field := option string.

(** Truthiness: [undefined], [null] and the empty string are falsy. *)
Definition truthy (v : field) : bool :=
  match v with
  | Some (String _ _) => true
  | _ => false
  end.

(** [a || b] *)
Definition or (a b : field) : field := if truthy a then a else b.

(** [a || d] where [d] is a string *)
Definition orStr (a : field) (d : string) : string :=
  match a with
  | Some (String c t) => String c t
  | _ => d
  end.

(** The template [`${n}`] for a non-negative integer. *)
Definition ofN (n : N) : string := NilEmpty.string_of_uint (N.to_uint n).

End Js.

(** ** The extraction result and its normalisation *)

Module Kyc.

(** [kycData.name] "could be array or string". *)
Inductive JsName : Type :=
| NameArray (parts : list string)
| NameString (s : string)
| NameMissing.

(** The [kyc_data] object of an [/extract-kyc-data] reply, with the
    properties the front end reads. *)
Record KycData : Type := mkKycData {
  kd_name : JsName;
  kd_gender : Js.field;
  kd_date_of_birth : Js.field;
  kd_dob : Js.field;
  kd_mobile_number : Js.field;
  kd_phone : Js.field;
  kd_mobile : Js.field;
  kd_aadhaar_number : Js.field;
  kd_aadhaar : Js.field;
  kd_uid : Js.field;
  kd_address : Js.field;
  kd_pan_number : Js.field;
  kd_pan : Js.field
}.

(** The object handed to the parent's [prefillData] callback, which is also
    the [prefillData] prop of [KYCForm]. *)
Record PrefillData : Type := mkPrefillData {
  name : option (list string);
  gender : Js.field;
  dateOfBirth : Js.field;
  mobileNumber : Js.field;
  aadhaarNumber : Js.field;
  address : Js.field;
  panNumber : Js.field
}.

(** The initial [formPrefillData] of both parents: [{}]. *)
Definition emptyPrefill : PrefillData :=
  mkPrefillData None None None None None None None.

(** [Array.isArray(kycData.name) ? kycData.name : kycData.name ? [kycData.name] : []] *)
Definition normalizeName (n : JsName) : list string :=
  match n with
  | NameArray parts => parts
  | NameString s => if Js.truthy (Some s) then [s] else []
  | NameMissing => []
  end.

(** [kycData.gender ? (lower.includes('male') ? 'Male' :
                       lower.includes('female') ? 'Female' : kycData.gender) : null] *)
Definition normalizeGender (g : Js.field) : Js.field :=
  match g with
  | Some text =>
      if Js.truthy (Some text) then
        if Js.includes (Js.toLowerCase text) "male" then Some "Male"
        else if Js.includes (Js.toLowerCase text) "female" then Some "Female"
        else Some text
      else None
  | None => None
  end.

(** The [formData] object built by [prefillFormWithKYCData]. *)
Definition mapKycData (k : KycData) : PrefillData :=
  {| name := Some (normalizeName (kd_name k));
     gender := normalizeGender (kd_gender k);
     dateOfBirth := Js.or (Js.or (kd_date_of_birth k) (kd_dob k)) None;
     mobileNumber :=
       Js.or (Js.or (Js.or (kd_mobile_number k) (kd_phone k)) (kd_mobile k)) None;
     aadhaarNumber :=
       Js.or (Js.or (Js.or (kd_aadhaar_number k) (kd_aadhaar k)) (kd_uid k)) None;
     address := Js.or (kd_address k) None;
     panNumber := Js.or (Js.or (kd_pan_number k) (kd_pan k)) None |}.

(** The closed set of gender values named by the specification. *)
Definition genderSet : list string := ["Male"; "Female"; "Other"; "Unknown"].

End Kyc.

(** ** KYCForm: the accumulated record and the prefill merge *)

Module KYCForm.

Record Address : Type := mkAddress {
  street : string;
  city : string;
  state : string;
  zipCode : string;
  country : string
}.

Record PersonalInfo : Type := mkPersonalInfo {
  firstName : string;
  lastName : string;
  dateOfBirth : string;
  nationality : string;
  phoneNumber : string;
  address : Address
}.

Inductive DocumentType : Type := passport | drivers_license | national_id.

Record Identification : Type := mkIdentification {
  documentType : DocumentType;
  documentNumber : string;
  expiryDate : string
}.

Record FinancialInfo : Type := mkFinancialInfo {
  sourceOfFunds : string;
  estimatedTransactionVolume : string;
  purposeOfAccount : string;
  employmentStatus : string;
  annualIncome : string
}.

Record FormDataState : Type := mkFormDataState {
  personalInfo : PersonalInfo;
  identification : Identification;
  financialInfo : FinancialInfo
}.

(** The signed-in user of [useAuth], as far as the form reads it. *)
Record User : Type := mkUser {
  user_firstName : Js.field;
  user_lastName : Js.field
}.

(** [prefillData.name?.[i]] *)
Definition namePart (p : Kyc.PrefillData) (i : nat) : Js.field :=
  match Kyc.name p with
  | Some parts => nth_error parts i
  | None => None
  end.

Definition userField (u : option User) (f : User -> Js.field) : Js.field :=
  match u with
  | Some x => f x
  | None => None
  end.

(** The initial value of [useState<FormDataState>]. *)
Definition initialFormData (prefillData : option Kyc.PrefillData) (user : option User)
  : FormDataState :=
  let pre (f : Kyc.PrefillData -> Js.field) : Js.field :=
    match prefillData with Some p => f p | None => None end in
  {| personalInfo :=
       {| firstName :=
            Js.orStr (Js.or (pre (fun p => namePart p 0))
                            (userField user user_firstName)) "";
          lastName :=
            Js.orStr (Js.or (pre (fun p => namePart p 1))
                            (userField user user_lastName)) "";
          dateOfBirth := Js.orStr (pre Kyc.dateOfBirth) "";
          nationality := "Indian";
          phoneNumber := Js.orStr (pre Kyc.mobileNumber) "";
          address :=
            {| street := Js.orStr (pre Kyc.address) "";
               city := ""; state := ""; zipCode := ""; country := "India" |} |};
     identification :=
       {| documentType := national_id;
          documentNumber := Js.orStr (pre Kyc.aadhaarNumber) "";
          expiryDate := "" |};
     financialInfo :=
       {| sourceOfFunds := ""; estimatedTransactionVolume := "";
          purposeOfAccount := ""; employmentStatus := ""; annualIncome := "" |} |}.

(** The updater passed to [setFormData] by the prefill effect. *)
Definition mergePrefill (prefillData : Kyc.PrefillData) (prev : FormDataState)
  : FormDataState :=
  {| personalInfo :=
       {| firstName := Js.orStr (namePart prefillData 0) (firstName (personalInfo prev));
          lastName := Js.orStr (namePart prefillData 1) (lastName (personalInfo prev));
          dateOfBirth :=
            Js.orStr (Kyc.dateOfBirth prefillData) (dateOfBirth (personalInfo prev));
          nationality := nationality (personalInfo prev);
          phoneNumber :=
            Js.orStr (Kyc.mobileNumber prefillData) (phoneNumber (personalInfo prev));
          address :=
            {| street :=
                 Js.orStr (Kyc.address prefillData)
                          (street (address (personalInfo prev)));
               city := city (address (personalInfo prev));
               state := state (address (personalInfo prev));
               zipCode := zipCode (address (personalInfo prev));
               country := country (address (personalInfo prev)) |} |};
     identification :=
       {| documentType := documentType (identification prev);
          documentNumber :=
            Js.orStr (Kyc.aadhaarNumber prefillData) (documentNumber (identification prev));
          expiryDate := expiryDate (identification prev) |};
     financialInfo := financialInfo prev |}.

(** The effect [useEffect(() => { if (prefillData) setFormData(...) }, [prefillData])]. *)
Definition prefillEffect (prefillData : option Kyc.PrefillData) (prev : FormDataState)
  : FormDataState :=
  match prefillData with
  | Some p => mergePrefill p prev
  | None => prev
  end.

End KYCForm.

(** ** FaceVerification: data *)

Module FaceVerification.

(** A browser [File]: only its name, MIME type and size in bytes matter. *)
Record File : Type := mkFile {
  file_name : string;
  file_type : string;
  file_size : N
}.

Record Lead : Type := mkLead {
  lead_name : Js.field;
  lead_company : Js.field;
  lead_title : Js.field;
  lead_email : Js.field;
  lead_phone : Js.field;
  lead_address : Js.field;
  lead_industry : Js.field;
  lead_website : Js.field;
  lead_social_media : list (string * string);
  lead_additional_info : Js.field
}.

Record State : Type := mkState {
  cameraActive : bool;
  faceDetected : bool;
  liveDetected : bool;
  documentFile : option File;
  loading : bool;
  extractingData : bool;
  statusMsg : string;
  livenessDone : bool;
  extractedLeads : list Lead;
  verificationAttempted : bool;
  selectedLeadIndex : nat
}.

(** The setters of [useState]; each replaces one variable. *)
Definition setCameraActive (v : bool) (s : State) : State :=
  mkState v (faceDetected s) (liveDetected s) (documentFile s) (loading s)
          (extractingData s) (statusMsg s) (livenessDone s) (extractedLeads s)
          (verificationAttempted s) (selectedLeadIndex s).
Definition setFaceDetected (v : bool) (s : State) : State :=
  mkState (cameraActive s) v (liveDetected s) (documentFile s) (loading s)
          (extractingData s) (statusMsg s) (livenessDone s) (extractedLeads s)
          (verificationAttempted s) (selectedLeadIndex s).
Definition setLiveDetected (v : bool) (s : State) : State :=
  mkState (cameraActive s) (faceDetected s) v (documentFile s) (loading s)
          (extractingData s) (statusMsg s) (livenessDone s) (extractedLeads s)
          (verificationAttempted s) (selectedLeadIndex s).
Definition setDocumentFile (v : option File) (s : State) : State :=
  mkState (cameraActive s) (faceDetected s) (liveDetected s) v (loading s)
          (extractingData s) (statusMsg s) (livenessDone s) (extractedLeads s)
          (verificationAttempted s) (selectedLeadIndex s).
Definition setLoading (v : bool) (s : State) : State :=
  mkState (cameraActive s) (faceDetected s) (liveDetected s) (documentFile s) v
          (extractingData s) (statusMsg s) (livenessDone s) (extractedLeads s)
          (verificationAttempted s) (selectedLeadIndex s).
Definition setExtractingData (v : bool) (s : State) : State :=
  mkState (cameraActive s) (faceDetected s) (liveDetected s) (documentFile s)
          (loading s) v (statusMsg s) (livenessDone s) (extractedLeads s)
          (verificationAttempted s) (selectedLeadIndex s).
Definition setStatusMsg (v : string) (s : State) : State :=
  mkState (cameraActive s) (faceDetected s) (liveDetected s) (documentFile s)
          (loading s) (extractingData s) v (livenessDone s) (extractedLeads s)
          (verificationAttempted s) (selectedLeadIndex s).
Definition setLivenessDone (v : bool) (s : State) : State :=
  mkState (cameraActive s) (faceDetected s) (liveDetected s) (documentFile s)
          (loading s) (extractingData s) (statusMsg s) v (extractedLeads s)
          (verificationAttempted s) (selectedLeadIndex s).
Definition setExtractedLeads (v : list Lead) (s : State) : State :=
  mkState (cameraActive s) (faceDetected s) (liveDetected s) (documentFile s)
          (loading s) (extractingData s) (statusMsg s) (livenessDone s) v
          (verificationAttempted s) (selectedLeadIndex s).
Definition setVerificationAttempted (v : bool) (s : State) : State :=
  mkState (cameraActive s) (faceDetected s) (liveDetected s) (documentFile s)
          (loading s) (extractingData s) (statusMsg s) (livenessDone s)
          (extractedLeads s) v (selectedLeadIndex s).
Definition setSelectedLeadIndex (v : nat) (s : State) : State :=
  mkState (cameraActive s) (faceDetected s) (liveDetected s) (documentFile s)
          (loading s) (extractingData s) (statusMsg s) (livenessDone s)
          (extractedLeads s) (verificationAttempted s) v.

(** Which callback props the parent supplied. *)
Record Props : Type := mkProps {
  onVerified : bool;
  prefillData : bool
}.

(** A [MediaStream] is named by the order in which [getUserMedia] produced it. *)
Definition StreamId : Type := nat.

(** The [<video>] element behind [videoRef], with its [srcObject]. *)
Record Video : Type := mkVideo { srcObject : option StreamId }.

(** The dependency list of the detection effect:
    [[cameraActive, faceDetected, livenessDone]]. *)
Record Deps : Type := mkDeps {
  dep_cameraActive : bool;
  dep_faceDetected : bool;
  dep_livenessDone : bool
}.

Definition depsOf (s : State) : Deps :=
  mkDeps (cameraActive s) (faceDetected s) (livenessDone s).

Definition Deps_eqb (a b : Deps) : bool :=
  Bool.eqb (dep_cameraActive a) (dep_cameraActive b)
  && Bool.eqb (dep_faceDetected a) (dep_faceDetected b)
  && Bool.eqb (dep_livenessDone a) (dep_livenessDone b).

(** One mounted component together with the browser objects it touches.

    - [videoRef] is [videoRef.current]; the canvas of [canvasRef] is rendered
      in the same conditional block, so it is mounted exactly when the video
      is;
    - [liveStreams] are the streams obtained by [getUserMedia] whose tracks
      have not been stopped;
    - [closure] holds the dependency values captured by the callbacks of the
      detection effect at its last run;
    - [pending] counts the liveness requests that have not settled yet;
    - [auth_token] is [localStorage.getItem('auth_token')]. *)
Record World : Type := mkWorld {
  props : Props;
  st : State;
  videoRef : option Video;
  liveStreams : list StreamId;
  nextStream : StreamId;
  closure : Deps;
  pending : nat;
  auth_token : Js.field
}.

Definition withState (f : State -> State) (w : World) : World :=
  mkWorld (props w) (f (st w)) (videoRef w) (liveStreams w) (nextStream w)
          (closure w) (pending w) (auth_token w).
Definition withVideo (v : option Video) (w : World) : World :=
  mkWorld (props w) (st w) v (liveStreams w) (nextStream w)
          (closure w) (pending w) (auth_token w).
Definition withStreams (l : list StreamId) (n : StreamId) (w : World) : World :=
  mkWorld (props w) (st w) (videoRef w) l n (closure w) (pending w) (auth_token w).
Definition withClosure (d : Deps) (w : World) : World :=
  mkWorld (props w) (st w) (videoRef w) (liveStreams w) (nextStream w)
          d (pending w) (auth_token w).
Definition withPending (n : nat) (w : World) : World :=
  mkWorld (props w) (st w) (videoRef w) (liveStreams w) (nextStream w)
          (closure w) n (auth_token w).

(** *** Requests and replies *)

Inductive Request : Type :=
| PostLiveness (user_id : string)
    (** POST /liveness-webcam with form fields [frame] and [user_id] *)
| PostExtract (document : File) (authorization : string)
    (** POST /extract-kyc-data with the [Authorization] header *)
| PostVerify (idphoto : File) (authorization : option string)
    (** POST /verify with [selfie], [idphoto], [model], [detector] *).

(** What the component does to the outside, in the order it does it. *)
Inductive Effect : Type :=
| Console (text : string)
| Alert (text : string)
| GetUserMedia
| StopTracks (stream : StreamId)
| Play
| Fetch (req : Request)
| PrefillData (data : Kyc.PrefillData)
| OnVerified (success : bool) (leads : list Lead)
| CameraStart
| CameraStop
| SetInterval
| ClearInterval.

(** [navigator.mediaDevices.getUserMedia] resolves or rejects with a message. *)
Inductive GumResult : Type :=
| GumOk
| GumFail (message : string).

(** [videoRef.current.play()] *)
Inductive PlayResult : Type :=
| PlayOk
| PlayFail (message : string).

(** Drawing the video on a fresh canvas and encoding it as JPEG. *)
Inductive Capture : Type :=
| NoContext   (** [canvas.getContext("2d")] returned null *)
| NoBlob      (** [canvas.toBlob] produced null *)
| Captured.

(** How a request to [/liveness-webcam] settles: the [fetch] or the reading
    of the body rejects, the status is not ok, or a JSON body arrives.  An
    absent [reason] is any string other than the two the handler tests. *)
Inductive LivenessReply : Type :=
| LrRejected (message : string)
| LrNotOk
| LrJson (live : bool) (reason : string) (frames_collected : option N).

(** How a request to [/extract-kyc-data] settles, in the same three ways. *)
Inductive ExtractReply : Type :=
| XrRejected (message : string)
| XrNotOk
| XrJson (success : bool) (kyc_data : option Kyc.KycData).

(** How a request to [/verify] settles.  [verified] stands for
    [data.verified === true || data.verified === 'true'], and [similarity]
    for the text of [(1 - data.distance).toFixed(2)] when [data.distance] is
    a number. *)
Inductive VerifyReply : Type :=
| VrRejected (message : string)
| VrResponse (status : N) (statusText : string)
             (verified : bool) (similarity : option string).

Definition responseOk (status : N) : bool :=
  ((200 <=? status) && (status <=? 299))%N.

(** *** Handlers as computations

    A computation transforms the world, appends to the effect trace and
    either completes or throws an [Error] with a message. *)

Inductive Completion (A : Type) : Type :=
| Normal (a : A)
| Throw (message : string).
Arguments Normal {A} a.
Arguments Throw {A} message.

Definition M (A : Type) : Type := World -> World * list Effect * Completion A.

Definition ret {A} (a : A) : M A := fun w => (w, [], Normal a).

Definition throw {A} (message : string) : M A := fun w => (w, [], Throw message).

Definition bind {A B} (m : M A) (k : A -> M B) : M B :=
  fun w =>
    match m w with
    | (w1, t1, Normal a) =>
        match k a w1 with
        | (w2, t2, c) => (w2, t1 ++ t2, c)
        end
    | (w1, t1, Throw message) => (w1, t1, Throw message)
    end.

(** [try { body } catch (err) { handler(err.message) }] *)
Definition tryCatch {A} (body : M A) (handler : string -> M A) : M A :=
  fun w =>
    match body w with
    | (w1, t1, Normal a) => (w1, t1, Normal a)
    | (w1, t1, Throw message) =>
        match handler message w1 with
        | (w2, t2, c) => (w2, t1 ++ t2, c)
        end
    end.

(** [try { body } finally { cleanup }] *)
Definition tryFinally {A} (body : M A) (cleanup : M unit) : M A :=
  fun w =>
    match body w with
    | (w1, t1, c) =>
        match cleanup w1 with
        | (w2, t2, Normal _) => (w2, t1 ++ t2, c)
        | (w2, t2, Throw message) => (w2, t1 ++ t2, Throw message)
        end
    end.

Declare Scope js_scope.
Delimit Scope js_scope with js.
Notation "x <- m ;; k" := (bind m (fun x => k))
  (at level 61, m at next level, right associativity) : js_scope.
Notation "m ;; k" := (bind m (fun _ => k))
  (at level 61, right associativity) : js_scope.
Local Open Scope js_scope.

Definition emit (e : Effect) : M unit := fun w => (w, [e], Normal tt).

Definition update (f : State -> State) : M unit :=
  fun w => (withState f w, [], Normal tt).

Definition world : M World := fun w => (w, [], Normal w).

Definition worldOf {A} (r : World * list Effect * Completion A) : World :=
  fst (fst r).
Definition traceOf {A} (r : World * list Effect * Completion A) : list Effect :=
  snd (fst r).

Definition console (text : string) : M unit := emit (Console text).

(** [notify]: log the message and show it as the status line. *)
Definition notify (msg : string) : M unit :=
  console ("Status: " ++ msg) ;;
  update (setStatusMsg msg).

(** *** Document extraction *)

(** [prefillFormWithKYCData] *)
Definition prefillFormWithKYCData (kycData : Kyc.KycData) : M unit :=
  w <- world ;;
  if prefillData (props w) then
    console "📝 Raw KYC Data received:" ;;
    console "📝 Mapped form data:" ;;
    emit (PrefillData (Kyc.mapKycData kycData))
  else ret tt.

(** The [Authorization] header of the extraction request:
    [token ? `Bearer ${token}` : ''] *)
Definition extractAuthorization (token : Js.field) : string :=
  match token with
  | Some (String c t) => "Bearer " ++ String c t
  | _ => ""
  end.

(** [extractLeadsData]; [reply] is how the awaited [fetch] settles. *)
Definition extractLeadsData (file : File) (reply : ExtractReply) : M (list Lead) :=
  update (setExtractingData true) ;;
  update (setExtractedLeads []) ;;
  tryFinally
    (tryCatch
       (w <- world ;;
        notify "🔄 Extracting KYC data from document..." ;;
        emit (Fetch (PostExtract file (extractAuthorization (auth_token w)))) ;;
        match reply with
        | XrRejected message => throw message
        | XrNotOk =>
            console "❌ KYC extraction failed" ;;
            ret []
        | XrJson success kyc_data =>
            console "🎯 KYC Extraction Result:" ;;
            match success, kyc_data with
            | true, Some kycData =>
                prefillFormWithKYCData kycData ;;
                notify "✅ KYC data extracted successfully!" ;;
                ret []
            | _, _ =>
                console "❌ KYC extraction failed" ;;
                ret []
            end
        end)
       (fun _ =>
          console "Extraction error:" ;;
          notify "⚠️ Could not extract data automatically." ;;
          ret []))
    (update (setExtractingData false)).

(** The size ceiling of an uploaded document: [5 * 1024 * 1024] bytes. *)
Definition maxDocumentSize : N := 5 * 1024 * 1024.

(** [handleDocumentUpload]; [input] is [e.target.files[0]], if any.
    [extractedLeads] is only ever set to the empty list, so the effect that
    prefills the form from the selected lead never finds one and is left
    out. *)
Definition handleDocumentUpload (input : option File) (reply : ExtractReply) : M unit :=
  match input with
  | Some file =>
      if negb (Js.startsWith (file_type file) "image/") then
        notify "❌ Please upload an image file"
      else if (maxDocumentSize <? file_size file)%N then
        notify "❌ File size should be less than 5MB"
      else
        update (setDocumentFile (Some file)) ;;
        update (setSelectedLeadIndex 0) ;;
        extractLeadsData file reply ;;
        ret tt
  | None => ret tt
  end.

(** *** Camera *)

(** [oldStream.getTracks().forEach((track) => track.stop())] *)
Definition stopStream (id : StreamId) : M unit :=
  emit (StopTracks id) ;;
  fun w =>
    (withStreams (filter (fun x => negb (Nat.eqb x id)) (liveStreams w)) (nextStream w) w,
     [], Normal tt).

(** [if (videoRef.current?.srcObject) { stop its tracks; srcObject = null }] *)
Definition releaseAttached : M unit :=
  w <- world ;;
  match videoRef w with
  | Some (mkVideo (Some old)) =>
      stopStream old ;;
      fun w1 => (withVideo (Some (mkVideo None)) w1, [], Normal tt)
  | _ => ret tt
  end.

(** [await navigator.mediaDevices.getUserMedia(...)] *)
Definition getUserMedia (gum : GumResult) : M StreamId :=
  emit GetUserMedia ;;
  match gum with
  | GumOk =>
      fun w =>
        (withStreams (liveStreams w ++ [nextStream w]) (S (nextStream w)) w,
         [], Normal (nextStream w))
  | GumFail message => throw message
  end.

(** [if (videoRef.current) { srcObject = stream; await play(); ... }] *)
Definition attach (stream : StreamId) (play : PlayResult) : M unit :=
  w <- world ;;
  match videoRef w with
  | Some _ =>
      (fun w1 => (withVideo (Some (mkVideo (Some stream))) w1, [], Normal tt)) ;;
      emit Play ;;
      match play with
      | PlayOk => ret tt
      | PlayFail message => throw message
      end
  | None => ret tt
  end.

(** [handleStartCamera] *)
Definition handleStartCamera (gum : GumResult) (play : PlayResult) : M unit :=
  tryCatch
    (releaseAttached ;;
     stream <- getUserMedia gum ;;
     attach stream play ;;
     update (setCameraActive true) ;;
     update (setLiveDetected false) ;;
     update (setLivenessDone false) ;;
     notify "Camera started. Please look into the camera...")
    (fun message =>
       console "Camera access error:" ;;
       emit (Alert ("Camera error: " ++ message))).

(** *** Presence detection and the liveness interval *)

(** The callback given to [faceDetection.onResults].  It reads
    [faceDetected] from the closure of the effect run that registered it.
    [ctx] tells whether the canvas gave a 2D context and [detections] is
    [results.detections?.length] (zero when absent). *)
Definition onResults (ctx : bool) (detections : nat) : M unit :=
  w <- world ;;
  match videoRef w with
  | None => ret tt
  | Some _ =>
      if negb ctx then ret tt
      else if (0 <? detections)%nat then
        if negb (dep_faceDetected (closure w)) then
          update (setFaceDetected true) ;;
          notify "✅ Face detected! Checking liveness..."
        else ret tt
      else
        if dep_faceDetected (closure w) then
          update (setFaceDetected false) ;;
          notify "❌ Face lost. Please look into the camera."
        else ret tt
  end.

(** The identifier sent with every liveness frame. *)
Definition livenessUserId : string := "user123".

(** [sendLivenessFrame] up to and including the [fetch]; [livenessDone] is
    the value of the render whose interval called it. *)
Definition sendLivenessFrame (cap : Capture) : M unit :=
  w <- world ;;
  match videoRef w with
  | None => ret tt
  | Some _ =>
      if dep_livenessDone (closure w) then ret tt
      else
        match cap with
        | NoContext => ret tt
        | NoBlob => ret tt
        | Captured =>
            emit (Fetch (PostLiveness livenessUserId)) ;;
            fun w1 => (withPending (S (pending w1)) w1, [], Normal tt)
        end
  end.

(** The rest of [sendLivenessFrame], run when the awaited [fetch] settles. *)
Definition livenessSettled (reply : LivenessReply) : M unit :=
  tryCatch
    (match reply with
     | LrRejected message => throw message
     | LrNotOk => throw "Liveness check failed"
     | LrJson live reason frames_collected =>
         console "Liveness result:" ;;
         if live then
           update (setLiveDetected true) ;;
           update (setLivenessDone true) ;;
           notify "✅ Liveness confirmed! You can now verify."
         else if String.eqb reason "collecting_frames" then
           match frames_collected with
           | Some n =>
               if (n mod 5 =? 0)%N then
                 notify ("⏳ Collecting frames... (" ++ Js.ofN n ++ ")")
               else ret tt
           | None => ret tt
           end
         else if String.eqb reason "No face detected" then
           notify "⚠️ Please keep your face in view."
         else ret tt
     end)
    (fun _ => console "Liveness error:").

(** The callback of [setInterval(..., 500)]. *)
Definition intervalTick (cap : Capture) : M unit :=
  w <- world ;;
  match videoRef w with
  | Some _ =>
      if dep_faceDetected (closure w) && negb (dep_livenessDone (closure w))
         && dep_cameraActive (closure w)
      then sendLivenessFrame cap
      else ret tt
  | None => ret tt
  end.

(** The cleanup returned by the detection effect. *)
Definition effectCleanup : M unit :=
  emit ClearInterval ;;
  emit CameraStop ;;
  releaseAttached.

(** The body of the detection effect, run with the committed state.  The
    detector and the camera helper come from the MediaPipe libraries: the
    model records that they are started and stopped, and takes the results
    they deliver as events; what they do to the video element in between is
    not part of the component. *)
Definition effectSetup : M unit :=
  w <- world ;;
  (fun w1 => (withClosure (depsOf (st w)) w1, [], Normal tt)) ;;
  if negb (cameraActive (st w)) then ret tt
  else
    emit CameraStart ;;
    emit SetInterval.

(** What React does once a handler has returned: render (the video and the
    canvas exist exactly while [cameraActive]) and, when a dependency of the
    detection effect changed, run its cleanup and then its body again.  The
    previous run registered a cleanup only if it got past
    [if (!cameraActive) return]. *)
Definition commit : M unit :=
  w <- world ;;
  (fun w1 =>
     (withVideo (if cameraActive (st w)
                 then match videoRef w with
                      | Some v => Some v
                      | None => Some (mkVideo None)
                      end
                 else None) w1, [], Normal tt)) ;;
  if Deps_eqb (closure w) (depsOf (st w)) then ret tt
  else
    (if dep_cameraActive (closure w) then effectCleanup else ret tt) ;;
    effectSetup.

(** *** Face match *)

(** The [Authorization] header of the match request, set only for a truthy token. *)
Definition verifyAuthorization (token : Js.field) : option string :=
  match token with
  | Some (String c t) => Some ("Bearer " ++ String c t)%string
  | _ => None
  end.

(** [onVerified?.(success, extractedLeads)] *)
Definition callOnVerified (success : bool) : M unit :=
  w <- world ;;
  if onVerified (props w) then emit (OnVerified success (extractedLeads (st w)))
  else ret tt.

(** [handleVerify]; [cap] is the outcome of the selfie capture and [reply]
    how the awaited [fetch] settles. *)
Definition handleVerify (cap : Capture) (reply : VerifyReply) : M unit :=
  w <- world ;;
  match documentFile (st w) with
  | None => notify "❌ Please upload your document first."
  | Some doc =>
      if negb (liveDetected (st w)) then
        notify "❌ Please wait for liveness detection to complete."
      else
        update (setLoading true) ;;
        update (setVerificationAttempted true) ;;
        notify "🔄 Verifying face match..." ;;
        tryFinally
          (tryCatch
             (match videoRef w with
              | None => throw "Camera not available"
              | Some _ =>
                  match cap with
                  | NoContext => throw "Could not create canvas context"
                  | NoBlob => throw "Could not capture selfie image"
                  | Captured =>
                      emit (Fetch (PostVerify doc (verifyAuthorization (auth_token w)))) ;;
                      match reply with
                      | VrRejected message => throw message
                      | VrResponse status statusText verified similarity =>
                          if (status =? 401)%N then
                            throw "Authentication failed. Please log in again."
                          else if negb (responseOk status) then
                            throw ("Server error: " ++ Js.ofN status ++ " - " ++ statusText)
                          else
                            console "Verification result:" ;;
                            if verified then
                              notify "✅ Face verified successfully! Moving to next step..." ;;
                              callOnVerified true
                            else
                              notify ("❌ Face does not match document photo."
                                      ++ match similarity with
                                         | Some text => " (Similarity: " ++ text ++ ")"
                                         | None => ""
                                         end) ;;
                              callOnVerified false
                      end
                  end
              end)
             (fun message =>
                console "Verification error:" ;;
                notify ("❌ " ++ message) ;;
                callOnVerified false))
          (update (setLoading false))
  end.

(** *** What the render shows *)

(** The start button is rendered by [{!cameraActive && (...)}]. *)
Definition startButtonShown (s : State) : bool := negb (cameraActive s).

(** The [disabled] attribute of the verify button:
    [!documentFile || !liveDetected || loading || extractingData]. *)
Definition verifyDisabled (s : State) : bool :=
  match documentFile s with Some _ => false | None => true end
  || negb (liveDetected s) || loading s || extractingData s.

(** *** The component as an event-driven system *)

(** Everything that can make the component run: the two buttons, the file
    input, a detection result, the interval firing, and a liveness request
    settling.  An upload and a match are taken as one step each, from the
    click to the reply. *)
Inductive Event : Type :=
| StartCamera (gum : GumResult) (play : PlayResult)
| Results (ctx : bool) (detections : nat)
| Tick (cap : Capture)
| LivenessReplied (reply : LivenessReply)
| Upload (input : option File) (reply : ExtractReply)
| Verify (cap : Capture) (reply : VerifyReply).

(** The detector and the interval exist only after an effect run that got
    past [if (!cameraActive) return]; a reply needs a request in flight. *)
Definition dispatch (e : Event) : M unit :=
  w <- world ;;
  match e with
  | StartCamera gum play => handleStartCamera gum play
  | Results ctx detections =>
      if dep_cameraActive (closure w) then onResults ctx detections else ret tt
  | Tick cap =>
      if dep_cameraActive (closure w) then intervalTick cap else ret tt
  | LivenessReplied reply =>
      match pending w with
      | O => ret tt
      | S n =>
          (fun w1 => (withPending n w1, [], Normal tt)) ;;
          livenessSettled reply
      end
  | Upload input reply => handleDocumentUpload input reply
  | Verify cap reply => handleVerify cap reply
  end.

(** One event followed at once by React's commit: the schedule in which
    the component has re-rendered before the next event arrives.  An
    exception that escapes a handler does not stop the event loop, so the
    completion is dropped.  [play], below, leaves the moment of the render
    open. *)
Definition step (e : Event) (w : World) : World * list Effect :=
  let '(w1, t1, _) := dispatch e w in
  let '(w2, t2, _) := commit w1 in
  (w2, t1 ++ t2).

Fixpoint run (es : list Event) (w : World) : World * list Effect :=
  match es with
  | [] => (w, [])
  | e :: rest =>
      let '(w1, t1) := step e w in
      let '(w2, t2) := run rest w1 in
      (w2, t1 ++ t2)
  end.

(** React renders in a task of its own after a state was set, and only the
    render runs the cleanup of the detection effect and registers its
    callbacks anew.  Until then the detector and the interval keep calling
    the callbacks of the last effect run, which read the values captured
    there, and the reply to a frame in flight may come in.  A [Signal] is one
    of these callbacks running, or the render. *)
Inductive Signal : Type :=
| Result (ctx : bool) (detections : nat)
| Ticked (cap : Capture)
| Replied (reply : LivenessReply)
| Rendered.

Definition signal (s : Signal) : M unit :=
  match s with
  | Result ctx detections => dispatch (Results ctx detections)
  | Ticked cap => dispatch (Tick cap)
  | Replied reply => dispatch (LivenessReplied reply)
  | Rendered => commit
  end.

Definition occur (s : Signal) (w : World) : World * list Effect :=
  let '(w1, t1, _) := signal s w in
  (w1, t1).

Fixpoint play (ss : list Signal) (w : World) : World * list Effect :=
  match ss with
  | [] => (w, [])
  | s :: rest =>
      let '(w1, t1) := occur s w in
      let '(w2, t2) := play rest w1 in
      (w2, t1 ++ t2)
  end.

(** The state after mounting: the [useState] defaults, which the mount
    effect writes once more. *)
Definition initialState : State :=
  mkState false false false None false false "" false [] false 0.

Definition initial (p : Props) (token : Js.field) : World :=
  mkWorld p initialState None [] 0 (depsOf initialState) 0 token.

(** *** Reading a trace *)

Definition requests (t : list Effect) : list Request :=
  flat_map (fun e => match e with Fetch r => [r] | _ => [] end) t.

Definition isLiveness (r : Request) : bool :=
  match r with PostLiveness _ => true | _ => false end.
Definition isVerify (r : Request) : bool :=
  match r with PostVerify _ _ => true | _ => false end.

Definition livenessSubmissions (t : list Effect) : list Request :=
  filter isLiveness (requests t).
Definition verifyRequests (t : list Effect) : list Request :=
  filter isVerify (requests t).

(** The presence transitions announced in a trace: [true] for
    "face detected", [false] for "face lost". *)
Definition presenceEvents (t : list Effect) : list bool :=
  flat_map
    (fun e =>
       match e with
       | Console text =>
           if String.eqb text "Status: ✅ Face detected! Checking liveness..." then [true]
           else if String.eqb text "Status: ❌ Face lost. Please look into the camera."
                then [false]
                else []
       | _ => []
       end) t.

(** *** Situations and scenarios the properties speak about *)

(** The detection effect is running on the committed state: the camera is
    active, the video is mounted and the callbacks have captured the current
    dependency values. *)
Definition subscribed (w : World) : bool :=
  cameraActive (st w)
  && Deps_eqb (closure w) (depsOf (st w))
  && match videoRef w with Some _ => true | None => false end.

(** A face is present and liveness is still open: the interval samples. *)
Definition probing (w : World) : bool :=
  subscribed w && faceDetected (st w) && negb (livenessDone (st w)).

(** The camera has not been started: nothing is mounted, detected,
    confirmed or in flight. *)
Definition idle (w : World) : bool :=
  negb (cameraActive (st w))
  && Deps_eqb (closure w) (depsOf (st w))
  && match videoRef w with Some _ => false | None => true end
  && (pending w =? 0)%nat
  && negb (liveDetected (st w))
  && negb (faceDetected (st w)).

(** An event other than a camera start whose acquisition resolves. *)
Definition notAcquired (e : Event) : bool :=
  match e with
  | StartCamera GumOk _ => false
  | _ => true
  end.

(** A liveness request that ends in the [catch] block. *)
Definition failed (reply : LivenessReply) : bool :=
  match reply with
  | LrRejected _ => true
  | LrNotOk => true
  | LrJson _ _ _ => false
  end.

(** The reply [{live: false, reason: "collecting_frames", frames_collected}]. *)
Definition collecting (frames_collected : N) : LivenessReply :=
  LrJson false "collecting_frames" (Some frames_collected).

(** One sample per reply: the interval fires, the frame is captured and
    sent, and the reply arrives before the interval fires again. *)
Definition rounds (replies : list LivenessReply) : list Event :=
  flat_map (fun reply => [Tick Captured; LivenessReplied reply]) replies.

(** One sample whose reply has come in and been rendered before the
    interval fires again. *)
Definition settledRound (reply : LivenessReply) : list Signal :=
  [Ticked Captured; Replied reply; Rendered].

(** One detection result, with or without a canvas context, and the render
    that follows it before the next result. *)
Definition renderedResult (r : bool * nat) : list Signal :=
  [Result (fst r) (snd r); Rendered].

(** The presence of a face in a detection result. *)
Definition present (detections : nat) : bool := (0 <? detections)%nat.

(** Debouncing as the specification words it: one transition per change of
    the result with respect to the previous one, none for a repetition. *)
Fixpoint transitions (previous : bool) (results : list bool) : list bool :=
  match results with
  | [] => []
  | r :: rest =>
      if Bool.eqb r previous then transitions previous rest
      else r :: transitions r rest
  end.

End FaceVerification.

(** ** ManualKYC: the parent that feeds the extraction into the form *)

Module ManualKYC.

Inductive ManualKYCStep : Type := welcome | face_verification | form | complete.

Record State : Type := mkState {
  currentStep : ManualKYCStep;
  formPrefillData : Kyc.PrefillData
}.

Definition initialState : State := mkState welcome Kyc.emptyPrefill.

(** [handlePrefillData]: the new object replaces [formPrefillData], and the
    form is shown as soon as a name, an Aadhaar number or a date of birth
    came out of the document. *)
Definition handlePrefillData (prefillData : Kyc.PrefillData) (s : State) : State :=
  let hasName :=
    match Kyc.name prefillData with
    | Some parts => (0 <? List.length parts)%nat
    | None => false
    end in
  if hasName || Js.truthy (Kyc.aadhaarNumber prefillData)
     || Js.truthy (Kyc.dateOfBirth prefillData)
  then mkState form prefillData
  else mkState (currentStep s) prefillData.

End ManualKYC.

(** ** KYCAgent: the conversational parent with its own upload *)

Module KYCAgent.

Import FaceVerification.

Inductive Sender : Type := user | agent.

(** The content of a chat bubble. *)
Inductive Node : Type :=
| Text (text : string)
| ErrorNote (text : string)
| UploadedFile (name : string)
| ExtractedInformation (kyc_data : Kyc.KycData)
| DocumentUpload.

Record ChatMessage : Type := mkChatMessage {
  sender : Sender;
  message : Node
}.

Inductive ConversationStep : Type :=
| welcome
| document_upload
| document_processing
| face_verification
| verification_processing
| complete.

Record State : Type := mkState {
  conversation : list ChatMessage;
  currentStep : ConversationStep;
  extractedData : option Kyc.KycData;
  formPrefillData : option Kyc.KycData;
  isProcessing : bool;
  faceVerificationComplete : bool;
  showFaceVerification : bool;
  uploadedDocument : option File
}.

Definition addMessage (who : Sender) (m : Node) (s : State) : State :=
  mkState (conversation s ++ [mkChatMessage who m]) (currentStep s) (extractedData s)
          (formPrefillData s) (isProcessing s) (faceVerificationComplete s)
          (showFaceVerification s) (uploadedDocument s).
Definition setCurrentStep (v : ConversationStep) (s : State) : State :=
  mkState (conversation s) v (extractedData s) (formPrefillData s) (isProcessing s)
          (faceVerificationComplete s) (showFaceVerification s) (uploadedDocument s).
Definition setExtractedData (v : option Kyc.KycData) (s : State) : State :=
  mkState (conversation s) (currentStep s) v (formPrefillData s) (isProcessing s)
          (faceVerificationComplete s) (showFaceVerification s) (uploadedDocument s).
Definition setFormPrefillData (v : option Kyc.KycData) (s : State) : State :=
  mkState (conversation s) (currentStep s) (extractedData s) v (isProcessing s)
          (faceVerificationComplete s) (showFaceVerification s) (uploadedDocument s).
Definition setIsProcessing (v : bool) (s : State) : State :=
  mkState (conversation s) (currentStep s) (extractedData s) (formPrefillData s) v
          (faceVerificationComplete s) (showFaceVerification s) (uploadedDocument s).
Definition setShowFaceVerification (v : bool) (s : State) : State :=
  mkState (conversation s) (currentStep s) (extractedData s) (formPrefillData s)
          (isProcessing s) (faceVerificationComplete s) v (uploadedDocument s).
Definition setUploadedDocument (v : option File) (s : State) : State :=
  mkState (conversation s) (currentStep s) (extractedData s) (formPrefillData s)
          (isProcessing s) (faceVerificationComplete s) (showFaceVerification s) v.

(** The agent's request to [/extract-kyc-data]: the form fields [document]
    and [use_api], and the [Authorization] header when a token is stored. *)
Inductive Effect : Type :=
| Console (text : string)
| Fetch (document : File) (use_api : string) (authorization : option string).

(** Building the "Extracted Information" card evaluates
    [result.kyc_data.name.join(' ')] when [name] is truthy and has a positive
    [length]: for a name that is a string and not an array, that call throws
    a [TypeError]. *)
Definition cardThrows (kyc_data : option Kyc.KycData) : bool :=
  match kyc_data with
  | Some k =>
      match Kyc.kd_name k with
      | Kyc.NameString text => Js.truthy (Some text)
      | _ => false
      end
  | None => false
  end.

(** The [catch] block: the error bubble, whose JSX text keeps its backslash,
    a new upload widget, and the upload step again. *)
Definition caught (s : State) : State * list Effect :=
  let s1 :=
    addMessage agent
      (ErrorNote "I couldn\'t read this document clearly. Please upload a clearer image.")
      s in
  (setCurrentStep document_upload (addMessage agent DocumentUpload s1),
   [Console "Document processing error:"]).

(** What the agent does once the reply is in: the success branch, which
    ends in the [catch] block when the card cannot be built, or the [catch]
    block at once for everything else. *)
Definition processed (reply : ExtractReply) (s : State) : State * list Effect :=
  match reply with
  | XrJson true kyc_data =>
      let s1 := setFormPrefillData kyc_data (setExtractedData kyc_data s) in
      let s2 :=
        addMessage agent
          (Text "✅ Document processed successfully! I've extracted your information.") s1 in
      if cardThrows kyc_data then caught s2
      else
        let s3 :=
          match kyc_data with
          | Some k => addMessage agent (ExtractedInformation k) s2
          | None => s2
          end in
        let s4 :=
          addMessage agent
            (Text "Now let's verify your identity with face recognition. Please use the camera below to complete face verification.")
            s3 in
        (setCurrentStep face_verification (setShowFaceVerification true s4), [])
  | _ => caught s
  end.

(** [handleDocumentUpload] of the agent. *)
Definition handleDocumentUpload (token : Js.field) (file : File) (reply : ExtractReply)
  (s : State) : State * list Effect :=
  if negb (Js.startsWith (file_type file) "image/") then
    (addMessage agent (ErrorNote "Please upload an image file (JPG, PNG)") s, [])
  else if (maxDocumentSize <? file_size file)%N then
    (addMessage agent (ErrorNote "File size should be less than 5MB") s, [])
  else
    let s1 := addMessage user (UploadedFile (file_name file)) s in
    let s2 := setIsProcessing true
                (setCurrentStep document_processing (setUploadedDocument (Some file) s1)) in
    let '(s3, t) := processed reply s2 in
    (setIsProcessing false s3,
     Fetch file "true" (verifyAuthorization token) :: t).

End KYCAgent.

(** ** Sample inputs *)

Module Samples.

Import FaceVerification.

(** An extraction result with a name and a gender only. *)
Definition kyc (n : Kyc.JsName) (g : Js.field) : Kyc.KycData :=
  Kyc.mkKycData n g None None None None None None None None None None None.

(** An extraction result with a name and the two date-of-birth properties. *)
Definition extraction (date_of_birth dob : Js.field) : Kyc.KycData :=
  Kyc.mkKycData (Kyc.NameArray ["Ravi"; "Kumar"]) None date_of_birth dob
                None None None None None None None None None.

(** The record of a form mounted without prefill data and without a user. *)
Definition blank : KYCForm.FormDataState := KYCForm.initialFormData None None.

Definition parent : Props := mkProps true true.

(** The component right after mounting, for two different signed-in users. *)
Definition mounted : World := initial parent (Some "token-of-asha").
Definition mountedOther : World := initial parent (Some "token-of-ravi").

Definition aadhaar : File := mkFile "aadhaar.png" "image/png" 204800.
Definition pdf : File := mkFile "aadhaar.pdf" "application/pdf" 204800.
Definition oversized : File := mkFile "scan.png" "image/png" 5242881.

Definition extracted : ExtractReply :=
  XrJson true (Some (extraction (Some "01/01/1990") None)).

Definition matched : VerifyReply := VrResponse 200 "OK" true None.

(** The camera is started and a face comes into view. *)
Definition approach : list Event := [StartCamera GumOk PlayOk; Results true 1].

(** The world in which the interval samples. *)
Definition sampling : World := fst (run approach mounted).

(** A whole session: document, camera, face, five samples, the last one live. *)
Definition session : list Event :=
  Upload (Some aadhaar) extracted :: approach
  ++ rounds [collecting 1; collecting 2; collecting 3; collecting 4; LrJson true "" None].

(** The world in which the match may be requested. *)
Definition confirmed : World := fst (run session mounted).

(** Six samples go out before the first of five replies comes back. *)
Definition overlapping : list Event :=
  repeat (Tick Captured) 6
  ++ map LivenessReplied
       [collecting 1; collecting 2; collecting 3; collecting 4; LrJson true "" None].

End Samples.

(** ** Reading the component from outside *)

Module Observing.

Import FaceVerification.

(** The calls of the parent's [onVerified] and [prefillData] in a trace, and
    the alerts shown. *)
Definition callbacks (t : list Effect) : list (bool * list Lead) :=
  flat_map (fun e => match e with OnVerified s l => [(s, l)] | _ => [] end) t.

Definition prefills (t : list Effect) : list Kyc.PrefillData :=
  flat_map (fun e => match e with PrefillData d => [d] | _ => [] end) t.

Definition alerts (t : list Effect) : list string :=
  flat_map (fun e => match e with Alert m => [m] | _ => [] end) t.

(** A file that passes the two tests of [handleDocumentUpload]. *)
Definition accepted (f : File) : bool :=
  Js.startsWith (file_type f) "image/" && negb (maxDocumentSize <? file_size f)%N.

(** The event is the upload of an accepted file. *)
Definition uploads (e : Event) : bool :=
  match e with
  | Upload (Some f) _ => accepted f
  | _ => false
  end.

(** [handleVerify] gets its selfie: the video element is there and the
    canvas gives a blob. *)
Definition selfie (w : World) (cap : Capture) : bool :=
  match videoRef w, cap with
  | Some _, Captured => true
  | _, _ => false
  end.

(** The reply to the match request reports a match: [response.ok] and
    [result.verified]. *)
Definition matches (reply : VerifyReply) : bool :=
  match reply with
  | VrResponse status _ verified _ => responseOk status && verified
  | VrRejected _ => false
  end.

(** The [kyc_data] of a reply with [success] and [kyc_data]. *)
Definition extractedFields (reply : ExtractReply) : option Kyc.KycData :=
  match reply with
  | XrJson true (Some k) => Some k
  | _ => None
  end.

(** What an event extracts: the fields of the reply to an accepted upload. *)
Definition extractionOf (e : Event) : option Kyc.KycData :=
  match e with
  | Upload (Some f) reply => if accepted f then extractedFields reply else None
  | _ => None
  end.

(** The objects an event hands to the parent's [prefillData]. *)
Definition delivered (p : Props) (e : Event) : list Kyc.PrefillData :=
  if prefillData p
  then match extractionOf e with
       | Some k => [Kyc.mapKycData k]
       | None => []
       end
  else [].

(** The event is a camera start that gets as far as [setCameraActive(true)]:
    the stream is acquired and, where a video element is there, it plays. *)
Definition acquires (w : World) (e : Event) : bool :=
  match e with
  | StartCamera GumOk play =>
      match videoRef w, play with
      | Some _, PlayFail _ => false
      | _, _ => true
      end
  | _ => false
  end.

(** The event is the reply [live: true] to a frame in flight. *)
Definition confirms (w : World) (e : Event) : bool :=
  match e with
  | LivenessReplied (LrJson true _ _) => negb (pending w =? 0)%nat
  | _ => false
  end.

(** The video element is in the document. *)
Definition videoMounted (w : World) : bool :=
  match videoRef w with Some _ => true | None => false end.

(** The effects of the detection effect's setup and cleanup. *)
Definition housekeeping (e : Effect) : bool :=
  match e with
  | ClearInterval | CameraStop | StopTracks _ | CameraStart | SetInterval => true
  | _ => false
  end.

(** Between two events: the two liveness flags agree, no lead is held and
    neither request is marked as running. *)
Definition tidy (s : State) : bool :=
  Bool.eqb (liveDetected s) (livenessDone s)
  && match extractedLeads s with [] => true | _ :: _ => false end
  && negb (loading s) && negb (extractingData s).

(** A mapped field is [null] or a string that is not empty. *)
Definition nullOrFilled (f : Js.field) : bool :=
  match f with
  | None => true
  | Some text => Js.truthy (Some text)
  end.

End Observing.

(** ** kycApi: the calls to the KYC back end *)

Module KycApi.

(** [getAuthHeaders] of [hooks/useAuth]; [token] is
    [localStorage.getItem("auth_token")]. *)
Record Headers : Type := mkHeaders {
  contentType : string;
  authorization : string
}.

Definition getAuthHeaders (token : Js.field) : Headers :=
  mkHeaders "application/json"
            match token with
            | Some (String c t) => "Bearer " ++ String c t
            | _ => ""
            end.

(** A [KYCApplication] as the front end reads it. *)
Record KYCApplication : Type := mkKYCApplication {
  id : string;
  userId : string;
  status : string;
  personalInfo : KYCForm.PersonalInfo;
  identification : KYCForm.Identification;
  financialInfo : KYCForm.FinancialInfo;
  submittedAt : string;
  reviewedAt : Js.field;
  reviewedBy : Js.field;
  rejectionReason : Js.field
}.

(** [KYCStatusUpdate]: every status but ['pending']. *)
Inductive KYCStatusUpdate : Type := approved | rejected | under_review.

Definition statusText (s : KYCStatusUpdate) : string :=
  match s with
  | approved => "approved"
  | rejected => "rejected"
  | under_review => "under_review"
  end.

(** The four requests, each with the headers of [getAuthHeaders]:
    POST /submit with the application as body, GET /all,
    GET /my-applications, and PUT /{kycId}/status with its query. *)
Inductive Call : Type :=
| PostSubmit (headers : Headers) (applicationData : KYCForm.FormDataState)
| GetAll (headers : Headers)
| GetMyApplications (headers : Headers)
| PutStatus (headers : Headers) (kycId : N) (query : list (string * string)).

Inductive Effect : Type :=
| Fetch (call : Call)
| ConsoleError (text : string).

(** How a request settles: the [fetch] rejects; the response is not ok and
    its JSON body holds a [detail] or none; reading the body as JSON rejects;
    or the response is ok with a JSON body. *)
Inductive Reply (T : Type) : Type :=
| Rejected (message : string)
| NotOk (detail : Js.field)
| Unreadable (message : string)
| Ok (data : T).
Arguments Rejected {T} message.
Arguments NotOk {T} detail.
Arguments Unreadable {T} message.
Arguments Ok {T} data.

Record ApiResponse (T : Type) : Type := mkApiResponse {
  success : bool;
  data : option T;
  error : option string;
  message : option string
}.
Arguments mkApiResponse {T} success data error message.
Arguments success {T} a.
Arguments data {T} a.
Arguments error {T} a.
Arguments message {T} a.

(** The four functions have one shape: send the request; an ok response
    with a JSON body gives the success answer; anything else throws inside
    the [try] block, [new Error(errorData.detail || fallback)] for a response
    that is not ok, and the [catch] block logs and answers with the message
    of the error. *)
Definition settle {T} (call : Call) (label fallback : string)
  (answer : T -> ApiResponse T) (reply : Reply T) : ApiResponse T * list Effect :=
  match reply with
  | Ok d => (answer d, [Fetch call])
  | Rejected m =>
      (mkApiResponse false None (Some m) None, [Fetch call; ConsoleError label])
  | Unreadable m =>
      (mkApiResponse false None (Some m) None, [Fetch call; ConsoleError label])
  | NotOk detail =>
      (mkApiResponse false None (Some (Js.orStr detail fallback)) None,
       [Fetch call; ConsoleError label])
  end.

(** [submitKYCApplication]; the body of an ok response is [{id}]. *)
Definition submitKYCApplication (token : Js.field)
  (applicationData : KYCForm.FormDataState) (reply : Reply N)
  : ApiResponse N * list Effect :=
  settle (PostSubmit (getAuthHeaders token) applicationData)
         "Error submitting KYC:" "Failed to submit KYC"
         (fun d => mkApiResponse true (Some d) None (Some "KYC submitted successfully"))
         reply.

(** [getAllKYCApplications] *)
Definition getAllKYCApplications (token : Js.field) (reply : Reply (list KYCApplication))
  : ApiResponse (list KYCApplication) * list Effect :=
  settle (GetAll (getAuthHeaders token))
         "Error fetching all KYC applications:" "Failed to fetch KYC applications"
         (fun d => mkApiResponse true (Some d) None None)
         reply.

(** [getMyKYCApplications] *)
Definition getMyKYCApplications (token : Js.field) (reply : Reply (list KYCApplication))
  : ApiResponse (list KYCApplication) * list Effect :=
  settle (GetMyApplications (getAuthHeaders token))
         "Error fetching user KYC applications:" "Failed to fetch your KYC applications"
         (fun d => mkApiResponse true (Some d) None None)
         reply.

(** The query of [updateKYCStatus]: [status] always, [reason] when truthy. *)
Definition statusQuery (status : KYCStatusUpdate) (reason : Js.field)
  : list (string * string) :=
  ("status", statusText status)
  :: match reason with
     | Some (String c t) => [("reason", String c t)]
     | _ => []
     end.

(** [updateKYCStatus]; the body of an ok response is [{message}], held here
    by its message. *)
Definition updateKYCStatus (token : Js.field) (kycId : N) (status : KYCStatusUpdate)
  (reason : Js.field) (reply : Reply string)
  : ApiResponse string * list Effect :=
  settle (PutStatus (getAuthHeaders token) kycId (statusQuery status reason))
         "Error updating KYC status:" "Failed to update KYC status"
         (fun m => mkApiResponse true (Some m) None (Some m))
         reply.

(** The requests of a trace, and whether a reply is an ok response with a
    readable body. *)
Definition fetches (t : list Effect) : list Call :=
  flat_map (fun e => match e with Fetch c => [c] | ConsoleError _ => [] end) t.

Definition isOk {T} (reply : Reply T) : bool :=
  match reply with
  | Ok _ => true
  | _ => false
  end.

End KycApi.

(** ** VerificationStatus: the status card *)

Module VerificationStatus.

Record Progress : Type := mkProgress {
  currentStep : nat;
  totalSteps : nat;
  stepName : string
}.

Record DocumentState : Type := mkDocumentState {
  uploaded : bool;
  verified : bool
}.

Record Documents : Type := mkDocuments {
  identity : DocumentState;
  address : DocumentState;
  income : DocumentState
}.

(** The object built by [transformKYCToStatus]. *)
Record Status : Type := mkStatus {
  id : string;
  status : string;
  submittedAt : string;
  reviewedAt : Js.field;
  reviewedBy : Js.field;
  rejectionReason : Js.field;
  progress : Progress;
  documents : Documents;
  estimatedCompletionTime : option string
}.

(** The [switch] on [app.status]; a status outside its four cases keeps
    the initial [currentStep = 1] and [stepName = 'Submitted']. *)
Definition stepOf (appStatus : string) : nat * string :=
  if String.eqb appStatus "pending" then (1, "Application Submitted")
  else if String.eqb appStatus "under_review" then (2, "Under Review")
  else if String.eqb appStatus "approved" then (4, "Approved")
  else if String.eqb appStatus "rejected" then (4, "Rejected")
  else (1, "Submitted").

(** [transformKYCToStatus] *)
Definition transformKYCToStatus (app : KycApi.KYCApplication) : Status :=
  let isApproved := String.eqb (KycApi.status app) "approved" in
  let isUnderReview := String.eqb (KycApi.status app) "under_review" in
  {| id := KycApi.id app;
     status := if isUnderReview then "in_review" else KycApi.status app;
     submittedAt := KycApi.submittedAt app;
     reviewedAt := KycApi.reviewedAt app;
     reviewedBy := KycApi.reviewedBy app;
     rejectionReason := KycApi.rejectionReason app;
     progress :=
       {| currentStep := fst (stepOf (KycApi.status app));
          totalSteps := 4;
          stepName := snd (stepOf (KycApi.status app)) |};
     documents :=
       {| identity := mkDocumentState true isApproved;
          address := mkDocumentState true isApproved;
          income := mkDocumentState true isApproved |};
     estimatedCompletionTime :=
       if isUnderReview then Some "2-3 business days" else None |}.

(** [fetchKYCStatus]: the latest application, transformed, or null. *)
Definition fetchKYCStatus (token : Js.field) (reply : KycApi.Reply (list KycApi.KYCApplication))
  : option Status * list KycApi.Effect :=
  let '(result, t) := KycApi.getMyKYCApplications token reply in
  (match KycApi.success result, KycApi.data result with
   | true, Some (latestApp :: _) => Some (transformKYCToStatus latestApp)
   | _, _ => None
   end, t).

(** The state of the card. *)
Record State : Type := mkState {
  kycStatus : option Status;
  loading : bool;
  error : option string;
  refreshing : bool
}.

Definition initialState : State := mkState None true None false.

(** The [onStatusUpdate] prop: absent, or a function whose call returns or
    throws. *)
Inductive Callback : Type :=
| Absent
| Returns
| Throws (message : string).

Inductive Effect : Type :=
| Api (e : KycApi.Effect)
| OnStatusUpdate (status : option Status)
| ConsoleError (text : string).

(** [loadKYCStatus].  [fetchKYCStatus] never rejects, so inside the [try]
    block only the call of [onStatusUpdate] can throw; the [catch] block
    then runs after [setKycStatus], and [finally] ends the loading. *)
Definition loadKYCStatus (onStatusUpdate : Callback) (token : Js.field)
  (reply : KycApi.Reply (list KycApi.KYCApplication)) (s : State)
  : State * list Effect :=
  let '(fetched, t) := fetchKYCStatus token reply in
  match onStatusUpdate with
  | Absent => (mkState fetched false None (refreshing s), map Api t)
  | Returns =>
      (mkState fetched false None (refreshing s), map Api t ++ [OnStatusUpdate fetched])
  | Throws _ =>
      (mkState fetched false (Some "Failed to load verification status") (refreshing s),
       map Api t ++ [OnStatusUpdate fetched; ConsoleError "KYC Status Error:"])
  end.

(** [refreshStatus] *)
Definition refreshStatus (onStatusUpdate : Callback) (token : Js.field)
  (reply : KycApi.Reply (list KycApi.KYCApplication)) (s : State)
  : State * list Effect :=
  let '(s1, t) := loadKYCStatus onStatusUpdate token reply
                                (mkState (kycStatus s) (loading s) (error s) true) in
  (mkState (kycStatus s1) (loading s1) (error s1) false, t).

(** What the component returns. *)
Inductive Screen : Type :=
| Spinner
| ErrorBanner (text : string)
| NoVerificationData
| Card (shown : Status).

Definition render (s : State) : Screen :=
  if loading s then Spinner
  else match error s with
       | Some text => ErrorBanner text
       | None =>
           match kycStatus s with
           | None => NoVerificationData
           | Some k => Card k
           end
       end.

(** The badge of the card. *)
Definition badge (k : Status) : string :=
  if String.eqb (status k) "approved" then "Approved"
  else if String.eqb (status k) "rejected" then "Rejected"
  else if String.eqb (status k) "in_review" then "Under Review"
  else "Pending".

(** The progress bar is rendered by [{kycStatus.status === 'in_review' && (...)}]. *)
Definition progressShown (k : Status) : bool := String.eqb (status k) "in_review".

(** The rejection reason is rendered by
    [{kycStatus.status === 'rejected' && kycStatus.rejectionReason && (...)}]. *)
Definition rejectionShown (k : Status) : bool :=
  String.eqb (status k) "rejected" && Js.truthy (rejectionReason k).

(** The requests of a trace of the card. *)
Definition calls (t : list Effect) : list KycApi.Call :=
  flat_map (fun e => match e with Api (KycApi.Fetch c) => [c] | _ => [] end) t.

End VerificationStatus.

(** ** KYCForm: the component around the record *)

Module KYCFormComponent.

(** The inputs wired to [handleChange] and, for the address, to
    [handleAddressChange]; each names the property it writes. *)
Inductive Input : Type :=
| firstName | lastName | dateOfBirth | nationality | phoneNumber
| street | city | state | zipCode | country
| documentNumber | expiryDate
| sourceOfFunds | annualIncome | employmentStatus
| estimatedTransactionVolume | purposeOfAccount.

Definition Input_eqb (a b : Input) : bool :=
  match a, b with
  | firstName, firstName | lastName, lastName | dateOfBirth, dateOfBirth
  | nationality, nationality | phoneNumber, phoneNumber
  | street, street | city, city | state, state | zipCode, zipCode | country, country
  | documentNumber, documentNumber | expiryDate, expiryDate
  | sourceOfFunds, sourceOfFunds | annualIncome, annualIncome
  | employmentStatus, employmentStatus
  | estimatedTransactionVolume, estimatedTransactionVolume
  | purposeOfAccount, purposeOfAccount => true
  | _, _ => false
  end.

(** The [value] attribute of an input. *)
Definition value (i : Input) (f : KYCForm.FormDataState) : string :=
  let p := KYCForm.personalInfo f in
  let a := KYCForm.address p in
  let d := KYCForm.identification f in
  let m := KYCForm.financialInfo f in
  match i with
  | firstName => KYCForm.firstName p
  | lastName => KYCForm.lastName p
  | dateOfBirth => KYCForm.dateOfBirth p
  | nationality => KYCForm.nationality p
  | phoneNumber => KYCForm.phoneNumber p
  | street => KYCForm.street a
  | city => KYCForm.city a
  | state => KYCForm.state a
  | zipCode => KYCForm.zipCode a
  | country => KYCForm.country a
  | documentNumber => KYCForm.documentNumber d
  | expiryDate => KYCForm.expiryDate d
  | sourceOfFunds => KYCForm.sourceOfFunds m
  | annualIncome => KYCForm.annualIncome m
  | employmentStatus => KYCForm.employmentStatus m
  | estimatedTransactionVolume => KYCForm.estimatedTransactionVolume m
  | purposeOfAccount => KYCForm.purposeOfAccount m
  end.

(** [handleAddressChange(field, value)]:
    [{...prev, personalInfo: {...prev.personalInfo,
       address: {...prev.personalInfo.address, [field]: value}}}] *)
Definition handleAddressChange (i : Input) (v : string) (prev : KYCForm.FormDataState)
  : KYCForm.FormDataState :=
  let p := KYCForm.personalInfo prev in
  let a := KYCForm.address p in
  let a' :=
    match i with
    | street => KYCForm.mkAddress v (KYCForm.city a) (KYCForm.state a)
                                  (KYCForm.zipCode a) (KYCForm.country a)
    | city => KYCForm.mkAddress (KYCForm.street a) v (KYCForm.state a)
                                (KYCForm.zipCode a) (KYCForm.country a)
    | state => KYCForm.mkAddress (KYCForm.street a) (KYCForm.city a) v
                                 (KYCForm.zipCode a) (KYCForm.country a)
    | zipCode => KYCForm.mkAddress (KYCForm.street a) (KYCForm.city a) (KYCForm.state a)
                                   v (KYCForm.country a)
    | country => KYCForm.mkAddress (KYCForm.street a) (KYCForm.city a) (KYCForm.state a)
                                   (KYCForm.zipCode a) v
    | _ => a
    end in
  KYCForm.mkFormDataState
    (KYCForm.mkPersonalInfo (KYCForm.firstName p) (KYCForm.lastName p)
                            (KYCForm.dateOfBirth p) (KYCForm.nationality p)
                            (KYCForm.phoneNumber p) a')
    (KYCForm.identification prev) (KYCForm.financialInfo prev).

(** [handleChange(section, field, value)]:
    [{...prev, [section]: {...prev[section], [field]: value}}], at the
    section and field of each text input and select. *)
Definition handleChange (i : Input) (v : string) (prev : KYCForm.FormDataState)
  : KYCForm.FormDataState :=
  let p := KYCForm.personalInfo prev in
  let d := KYCForm.identification prev in
  let m := KYCForm.financialInfo prev in
  let personal p' :=
    KYCForm.mkFormDataState p' (KYCForm.identification prev) (KYCForm.financialInfo prev) in
  let ident d' :=
    KYCForm.mkFormDataState (KYCForm.personalInfo prev) d' (KYCForm.financialInfo prev) in
  let financial m' :=
    KYCForm.mkFormDataState (KYCForm.personalInfo prev) (KYCForm.identification prev) m' in
  match i with
  | firstName =>
      personal (KYCForm.mkPersonalInfo v (KYCForm.lastName p) (KYCForm.dateOfBirth p)
                  (KYCForm.nationality p) (KYCForm.phoneNumber p) (KYCForm.address p))
  | lastName =>
      personal (KYCForm.mkPersonalInfo (KYCForm.firstName p) v (KYCForm.dateOfBirth p)
                  (KYCForm.nationality p) (KYCForm.phoneNumber p) (KYCForm.address p))
  | dateOfBirth =>
      personal (KYCForm.mkPersonalInfo (KYCForm.firstName p) (KYCForm.lastName p) v
                  (KYCForm.nationality p) (KYCForm.phoneNumber p) (KYCForm.address p))
  | nationality =>
      personal (KYCForm.mkPersonalInfo (KYCForm.firstName p) (KYCForm.lastName p)
                  (KYCForm.dateOfBirth p) v (KYCForm.phoneNumber p) (KYCForm.address p))
  | phoneNumber =>
      personal (KYCForm.mkPersonalInfo (KYCForm.firstName p) (KYCForm.lastName p)
                  (KYCForm.dateOfBirth p) (KYCForm.nationality p) v (KYCForm.address p))
  | documentNumber =>
      ident (KYCForm.mkIdentification (KYCForm.documentType d) v (KYCForm.expiryDate d))
  | expiryDate =>
      ident (KYCForm.mkIdentification (KYCForm.documentType d) (KYCForm.documentNumber d) v)
  | sourceOfFunds =>
      financial (KYCForm.mkFinancialInfo v (KYCForm.estimatedTransactionVolume m)
                   (KYCForm.purposeOfAccount m) (KYCForm.employmentStatus m)
                   (KYCForm.annualIncome m))
  | estimatedTransactionVolume =>
      financial (KYCForm.mkFinancialInfo (KYCForm.sourceOfFunds m) v
                   (KYCForm.purposeOfAccount m) (KYCForm.employmentStatus m)
                   (KYCForm.annualIncome m))
  | purposeOfAccount =>
      financial (KYCForm.mkFinancialInfo (KYCForm.sourceOfFunds m)
                   (KYCForm.estimatedTransactionVolume m) v
                   (KYCForm.employmentStatus m) (KYCForm.annualIncome m))
  | employmentStatus =>
      financial (KYCForm.mkFinancialInfo (KYCForm.sourceOfFunds m)
                   (KYCForm.estimatedTransactionVolume m) (KYCForm.purposeOfAccount m)
                   v (KYCForm.annualIncome m))
  | annualIncome =>
      financial (KYCForm.mkFinancialInfo (KYCForm.sourceOfFunds m)
                   (KYCForm.estimatedTransactionVolume m) (KYCForm.purposeOfAccount m)
                   (KYCForm.employmentStatus m) v)
  | street | city | state | zipCode | country => prev
  end.

(** The change handler an input is wired to. *)
Definition onChange (i : Input) (v : string) (prev : KYCForm.FormDataState)
  : KYCForm.FormDataState :=
  match i with
  | street | city | state | zipCode | country => handleAddressChange i v prev
  | _ => handleChange i v prev
  end.

(** [handleChange('identification', 'documentType', e.target.value)]: the
    select offers the three document types. *)
Definition handleDocumentType (t : KYCForm.DocumentType) (prev : KYCForm.FormDataState)
  : KYCForm.FormDataState :=
  KYCForm.mkFormDataState
    (KYCForm.personalInfo prev)
    (KYCForm.mkIdentification t (KYCForm.documentNumber (KYCForm.identification prev))
                              (KYCForm.expiryDate (KYCForm.identification prev)))
    (KYCForm.financialInfo prev).

(** The step panel ([currentStep === 1], [2], [3]) that renders an input. *)
Definition panel (i : Input) : nat :=
  match i with
  | firstName | lastName | dateOfBirth | nationality | phoneNumber
  | street | city | state | zipCode | country => 1
  | documentNumber | expiryDate => 2
  | _ => 3
  end.

(** The component: its three state variables besides the record. *)
Record State : Type := mkState {
  currentStep : nat;
  submitted : bool;
  loading : bool;
  formData : KYCForm.FormDataState
}.

(** The first render and the prefill effect that follows it. *)
Definition mount (prefillData : option Kyc.PrefillData) (user : option KYCForm.User)
  : State :=
  mkState 1 false false
          (KYCForm.prefillEffect prefillData (KYCForm.initialFormData prefillData user)).

Inductive Effect : Type :=
| Api (e : KycApi.Effect)
| NotifySuccess (text : string)
| NotifyError (text : string)
| SetTimeoutOnComplete (ms : N).

(** [handleSubmit]; [onComplete] tells whether the parent gave the callback
    and [reply] is how the request of [submitKYCApplication] settles. *)
Definition handleSubmit (onComplete : bool) (token : Js.field) (reply : KycApi.Reply N)
  (s : State) : State * list Effect :=
  let '(result, t) := KycApi.submitKYCApplication token (formData s) reply in
  if KycApi.success result then
    (mkState (currentStep s) true false (formData s),
     map Api t ++ NotifySuccess "KYC application submitted successfully!"
     :: (if onComplete then [SetTimeoutOnComplete 2000] else []))
  else
    (mkState (currentStep s) (submitted s) false (formData s),
     map Api t ++ [NotifyError (Js.orStr (KycApi.error result)
                                         "Failed to submit application")]).

(** What the user can do with the rendered form.  Once [submitted], the
    component returns the confirmation and nothing of the form; [Previous]
    is rendered for [currentStep > 1]; for [currentStep < 3] the right-hand
    button is [Next], otherwise the submit button. *)
Inductive Action : Type :=
| Type_ (i : Input) (v : string)
| ChooseDocumentType (t : KYCForm.DocumentType)
| Previous
| Next
| Submit (reply : KycApi.Reply N).

Definition act (onComplete : bool) (token : Js.field) (a : Action) (s : State)
  : State * list Effect :=
  if submitted s then (s, [])
  else
    match a with
    | Type_ i v =>
        if (currentStep s =? panel i)%nat
        then (mkState (currentStep s) (submitted s) (loading s) (onChange i v (formData s)), [])
        else (s, [])
    | ChooseDocumentType t =>
        if (currentStep s =? 2)%nat
        then (mkState (currentStep s) (submitted s) (loading s)
                      (handleDocumentType t (formData s)), [])
        else (s, [])
    | Previous =>
        if (1 <? currentStep s)%nat
        then (mkState (currentStep s - 1) (submitted s) (loading s) (formData s), [])
        else (s, [])
    | Next =>
        if (currentStep s <? 3)%nat
        then (mkState (currentStep s + 1) (submitted s) (loading s) (formData s), [])
        else (s, [])
    | Submit reply =>
        if (currentStep s <? 3)%nat then (s, [])
        else handleSubmit onComplete token reply s
    end.

Fixpoint acts (onComplete : bool) (token : Js.field) (l : list Action) (s : State)
  : State * list Effect :=
  match l with
  | [] => (s, [])
  | a :: rest =>
      let '(s1, t1) := act onComplete token a s in
      let '(s2, t2) := acts onComplete token rest s1 in
      (s2, t1 ++ t2)
  end.

(** The requests, the success notices and the [onComplete] timers of a trace. *)
Definition posts (t : list Effect) : list KycApi.Call :=
  flat_map (fun e => match e with Api (KycApi.Fetch c) => [c] | _ => [] end) t.

Definition notices (t : list Effect) : list Effect :=
  filter (fun e => match e with NotifySuccess _ | NotifyError _ => true | _ => false end) t.

Definition successes (t : list Effect) : nat :=
  List.length (filter (fun e => match e with NotifySuccess _ => true | _ => false end) t).

Definition completions (t : list Effect) : nat :=
  List.length (filter (fun e => match e with SetTimeoutOnComplete _ => true | _ => false end) t).

End KYCFormComponent.

(** ** ManualKYC: the wiring between the steps *)

Module ManualKYCFlow.

(** [extractedData], the state variable [ManualKYC.State] leaves out, beside
    the two it holds. *)
Record State : Type := mkState {
  base : ManualKYC.State;
  extractedData : option (list FaceVerification.Lead)
}.

Definition initialState : State := mkState ManualKYC.initialState None.

Definition currentStep (s : State) : ManualKYC.ManualKYCStep :=
  ManualKYC.currentStep (base s).

Definition setCurrentStep (v : ManualKYC.ManualKYCStep) (s : State) : State :=
  mkState (ManualKYC.mkState v (ManualKYC.formPrefillData (base s))) (extractedData s).

(** [handleFaceVerificationComplete] *)
Definition handleFaceVerificationComplete (success : bool)
  (data : list FaceVerification.Lead) (s : State) : State :=
  if success then mkState (base s) (Some data) else s.

(** [handlePrefillData], on the whole state. *)
Definition handlePrefillData (prefillData : Kyc.PrefillData) (s : State) : State :=
  mkState (ManualKYC.handlePrefillData prefillData (base s)) (extractedData s).

(** [handleShowForm] *)
Definition handleShowForm (s : State) : State := setCurrentStep ManualKYC.form s.

(** The callbacks [FaceVerification] is given: [onVerified] and
    [prefillData]; every other effect of the component stays with it. *)
Definition deliver (e : FaceVerification.Effect) (s : State) : State :=
  match e with
  | FaceVerification.PrefillData d => handlePrefillData d s
  | FaceVerification.OnVerified success leads =>
      handleFaceVerificationComplete success leads s
  | _ => s
  end.

Definition deliverAll (t : list FaceVerification.Effect) (s : State) : State :=
  fold_left (fun acc e => deliver e acc) t s.

(** What the extraction must hold for [handlePrefillData] to show the form,
    read on the raw result: a name, an Aadhaar number or a date of birth. *)
Definition identifies (k : Kyc.KycData) : bool :=
  (0 <? List.length (Kyc.normalizeName (Kyc.kd_name k)))%nat
  || Js.truthy (Js.or (Js.or (Kyc.kd_aadhaar_number k) (Kyc.kd_aadhaar k)) (Kyc.kd_uid k))
  || Js.truthy (Js.or (Kyc.kd_date_of_birth k) (Kyc.kd_dob k)).

End ManualKYCFlow.

(** ** KYCAgent: the conversation around the upload *)

Module KYCAgentFlow.

Import KYCAgent.

(** [handleStartVerification] *)
Definition handleStartVerification (s : State) : State :=
  setCurrentStep document_upload
    (addMessage agent DocumentUpload
       (addMessage agent
          (Text "Great! Let's begin with document verification. Please upload your ID proof (Aadhaar, PAN, or any identity document).")
          (addMessage user (Text "Start Verification") s))).

Definition setFaceVerificationComplete (v : bool) (s : State) : State :=
  mkState (conversation s) (currentStep s) (extractedData s) (formPrefillData s)
          (isProcessing s) v (showFaceVerification s) (uploadedDocument s).

(** The three nested [setTimeout] callbacks of a successful verification. *)
Inductive Timer : Type :=
| Finalizing
| Completing
| Notifying.

Inductive Effect : Type :=
| SetTimeout (callback : Timer) (ms : N)
| OnComplete
| Upload (e : KYCAgent.Effect).

(** [handleFaceVerified].  A card or a button put into the conversation is
    held by its heading. *)
Definition handleFaceVerified (success : bool) (s : State) : State * list Effect :=
  if success then
    (setCurrentStep verification_processing
       (addMessage agent
          (Text "✅ Face verification completed! Your identity has been verified.")
          (addMessage user (Text "Face verification successful")
             (setShowFaceVerification false (setFaceVerificationComplete true s)))),
     [SetTimeout Finalizing 1000])
  else
    (addMessage agent (Text "Retry Face Verification")
       (addMessage agent (Text "Face Verification Required")
          (addMessage user (Text "Face verification failed")
             (setShowFaceVerification false s))),
     []).

(** A timer callback running; [onComplete] tells whether the parent gave
    the callback. *)
Definition fire (onComplete : bool) (t : Timer) (s : State) : State * list Effect :=
  match t with
  | Finalizing =>
      (addMessage agent (Text "Finalizing your verification... ⏳") s,
       [SetTimeout Completing 2000])
  | Completing =>
      (setCurrentStep complete
         (addMessage agent (Text "KYC Verification Complete!") s),
       [SetTimeout Notifying 2000])
  | Notifying => (s, if onComplete then [OnComplete] else [])
  end.

(** The click on the retry button: [setShowFaceVerification(true)]. *)
Definition retry (s : State) : State := setShowFaceVerification true s.

(** The agent with its timers: the callbacks that are set and have not run. *)
Record Agent : Type := mkAgent {
  state : State;
  timers : list Timer
}.

Inductive Event : Type :=
| StartVerification
| Uploaded (file : FaceVerification.File) (reply : FaceVerification.ExtractReply)
| FaceVerified (success : bool)
| Retry
| Fires (n : nat).

Definition scheduled (t : list Effect) : list Timer :=
  flat_map (fun e => match e with SetTimeout c _ => [c] | _ => [] end) t.

Fixpoint removeNth {A} (n : nat) (l : list A) : list A :=
  match n, l with
  | _, [] => []
  | O, _ :: rest => rest
  | S m, x :: rest => x :: removeNth m rest
  end.

(** One event of the agent; [Fires n] runs the [n]-th pending timer, and
    does nothing when there is none. *)
Definition step (onComplete : bool) (token : Js.field) (e : Event) (a : Agent)
  : Agent * list Effect :=
  match e with
  | StartVerification => (mkAgent (handleStartVerification (state a)) (timers a), [])
  | Uploaded file reply =>
      let '(s, t) := handleDocumentUpload token file reply (state a) in
      (mkAgent s (timers a), map Upload t)
  | FaceVerified success =>
      let '(s, t) := handleFaceVerified success (state a) in
      (mkAgent s (timers a ++ scheduled t), t)
  | Retry => (mkAgent (retry (state a)) (timers a), [])
  | Fires n =>
      match nth_error (timers a) n with
      | Some c =>
          let '(s, t) := fire onComplete c (state a) in
          (mkAgent s (removeNth n (timers a) ++ scheduled t), t)
      | None => (a, [])
      end
  end.

Fixpoint run (onComplete : bool) (token : Js.field) (es : list Event) (a : Agent)
  : Agent * list Effect :=
  match es with
  | [] => (a, [])
  | e :: rest =>
      let '(a1, t1) := step onComplete token e a in
      let '(a2, t2) := run onComplete token rest a1 in
      (a2, t1 ++ t2)
  end.

(** The state of [useState]: the greeting, and nothing else yet. *)
Definition initialState : State :=
  mkState [mkChatMessage agent
             (Text "Hi! I'm your KYC Agent 🤖. I'll help you complete your verification quickly and securely.")]
          welcome None None false false false None.

Definition initial : Agent := mkAgent initialState [].

(** The agent shows its completion screen. *)
Definition isComplete (s : State) : bool :=
  match currentStep s with
  | complete => true
  | _ => false
  end.

(** A successful face verification counts once. *)
Definition isSuccess (e : Event) : nat :=
  match e with
  | FaceVerified true => 1
  | _ => 0
  end.

(** Counting over a run: the calls of [onComplete] and the successful face
    verifications. *)
Definition completions (t : list Effect) : nat :=
  List.length (filter (fun e => match e with OnComplete => true | _ => false end) t).

Definition successes (es : list Event) : nat := list_sum (map isSuccess es).

Definition fetched (t : list KYCAgent.Effect)
  : list (FaceVerification.File * string * option string) :=
  flat_map (fun e => match e with
                     | KYCAgent.Fetch d u a => [(d, u, a)]
                     | KYCAgent.Console _ => []
                     end) t.

End KYCAgentFlow.

(** ** SmartKYCFlow: the choice between the agent and the form *)

Module SmartKYCFlow.

Inductive KYCView : Type := welcome | chat | form | complete.

Inductive Preference : Type := preferChat | preferForm.

Record State : Type := mkState {
  currentView : KYCView;
  userPreference : option Preference
}.

Definition initialState : State := mkState welcome None.

Definition viewOf (p : Preference) : KYCView :=
  match p with
  | preferChat => chat
  | preferForm => form
  end.

(** The two cards and the button of the welcome screen, and the
    [onComplete] given to [KYCAgent]; [KYCForm] is given none. *)
Inductive Event : Type :=
| Choose (p : Preference)
| Continue
| AgentComplete.

Definition step (e : Event) (s : State) : State :=
  match currentView s, e with
  | welcome, Choose p => mkState welcome (Some p)
  | welcome, Continue =>
      match userPreference s with
      | Some p => mkState (viewOf p) (userPreference s)
      | None => s
      end
  | chat, AgentComplete => mkState complete (userPreference s)
  | _, _ => s
  end.

Definition run (es : list Event) (s : State) : State :=
  fold_left (fun acc e => step e acc) es s.

(** The [onComplete] prop a view hands to the component it renders. *)
Definition givesOnComplete (v : KYCView) : bool :=
  match v with
  | chat => true
  | _ => false
  end.

(** Every view but the welcome screen was entered with its preference. *)
Definition settled (s : State) : Prop :=
  match currentView s with
  | welcome => True
  | chat | complete => userPreference s = Some preferChat
  | form => userPreference s = Some preferForm
  end.

End SmartKYCFlow.

(** * Properties *)

Unset Implicit Arguments.

(** ** Strings *)

Module JsFacts.

Local Open Scope string_scope.

Lemma startsWith_spec (s p : string) :
  Js.startsWith s p = true <-> exists t, s = p ++ t.
Proof.
  revert s. induction p as [|a p IH]; intros s; cbn.
  - split; [intros _; exists s; reflexivity | reflexivity].
  - destruct s as [|b s].
    + split; [discriminate | intros [t Ht]; discriminate].
    + rewrite andb_true_iff, Ascii.eqb_eq, IH. split.
      * intros [-> [t ->]]. exists t. reflexivity.
      * intros [t Ht]. injection Ht as -> ->.
        split; [reflexivity | exists t; reflexivity].
Qed.

Lemma includes_here (s sub : string) :
  Js.startsWith s sub = true -> Js.includes s sub = true.
Proof. intros H. destruct s; cbn [Js.includes]; rewrite H; reflexivity. Qed.

Lemma includes_spec (s sub : string) :
  Js.includes s sub = true <-> exists a b, s = a ++ sub ++ b.
Proof.
  induction s as [|c s IH].
  - split.
    + cbn [Js.includes]. destruct (Js.startsWith "" sub) eqn:E; [| discriminate].
      apply startsWith_spec in E. destruct E as [t Ht].
      intros _. exists "", t. exact Ht.
    + intros [a [b H]]. destruct a; [| discriminate].
      apply includes_here, startsWith_spec. exists b. exact H.
  - split.
    + cbn [Js.includes]. destruct (Js.startsWith (String c s) sub) eqn:E.
      * apply startsWith_spec in E. destruct E as [t Ht].
        intros _. exists "", t. exact Ht.
      * intros H. apply IH in H. destruct H as [a [b ->]].
        exists (String c a), b. reflexivity.
    + intros [a [b H]]. destruct a as [|c' a].
      * apply includes_here, startsWith_spec. exists b. exact H.
      * injection H as _ ->.
        cbn [Js.includes]. destruct (Js.startsWith _ sub); [reflexivity |].
        apply IH. exists a, b. reflexivity.
Qed.

Lemma append_assoc (a b c : string) : (a ++ b) ++ c = a ++ b ++ c.
Proof. induction a as [|x a IH]; cbn; [reflexivity | now rewrite IH]. Qed.

(** Every text that contains "female" contains "male". *)
Lemma includes_female_male (s : string) :
  Js.includes s "female" = true -> Js.includes s "male" = true.
Proof.
  rewrite !includes_spec. intros [a [b ->]].
  exists (a ++ "fe"), b. rewrite append_assoc. reflexivity.
Qed.

Lemma orStr_truthy (a : Js.field) (d : string) :
  Js.orStr a d = if Js.truthy a then Js.orStr a "" else d.
Proof. destruct a as [[|c t]|]; reflexivity. Qed.

Lemma orStr_or_null (a : Js.field) (d : string) :
  Js.orStr (Js.or a None) d = Js.orStr a d.
Proof. destruct a as [[|c t]|]; reflexivity. Qed.

End JsFacts.

(** ** Normalisation of the extracted fields *)

Module KycProperties.

Import Kyc.

(** The code at the input of the specification's example: a text that
    denotes a female subject.  The test for "male" comes first and succeeds
    on it, so the branch that yields "Female" is never taken. *)
Example normalizeGender_Female : normalizeGender (Some "Female") = Some "Male".
Proof. reflexivity. Qed.

Lemma normalizeGender_never_Female_branch (text : string) :
  Js.includes (Js.toLowerCase text) "male" = false ->
  Js.includes (Js.toLowerCase text) "female" = false.
Proof.
  intros H. destruct (Js.includes (Js.toLowerCase text) "female") eqn:E; [| reflexivity].
  apply JsFacts.includes_female_male in E. congruence.
Qed.

(** C3, as stated, fails: a raw name string is not split into parts but kept
    whole as one part, and a gender text that does not contain "male" is
    passed through as it is, outside the closed set. *)
Lemma normalization_counterexample :
  let k := Samples.kyc (NameString "Ravi Kumar") (Some "F") in
  name (mapKycData k) = Some ["Ravi Kumar"]
  /\ gender (mapKycData k) = Some "F"
  /\ ~ In "F" genderSet.
Proof.
  cbn. repeat split.
  intros H. repeat (destruct H as [H | H]; [discriminate |]). exact H.
Qed.

(** C3 (amended): a raw name string is kept whole as a single name part, an
    array of parts is kept as it is, and an absent or empty name gives no
    parts; a gender text that contains "male" and not "female" (ignoring
    case) becomes "Male", a non-empty text that does not contain "male" is
    passed through unchanged, and an absent or empty gender becomes null. *)
Theorem normalization_by_design (k : KycData) :
  (forall s, kd_name k = NameString s -> Js.truthy (Some s) = true ->
             name (mapKycData k) = Some [s])
  /\ (forall parts, kd_name k = NameArray parts -> name (mapKycData k) = Some parts)
  /\ (kd_name k = NameMissing \/ kd_name k = NameString "" ->
      name (mapKycData k) = Some [])
  /\ (forall text, kd_gender k = Some text -> Js.truthy (Some text) = true ->
        Js.includes (Js.toLowerCase text) "male" = true ->
        Js.includes (Js.toLowerCase text) "female" = false ->
        gender (mapKycData k) = Some "Male")
  /\ (forall text, kd_gender k = Some text -> Js.truthy (Some text) = true ->
        Js.includes (Js.toLowerCase text) "male" = false ->
        gender (mapKycData k) = Some text)
  /\ (Js.truthy (kd_gender k) = false -> gender (mapKycData k) = None).
Proof.
  unfold mapKycData; cbn [name gender]. repeat split.
  - intros s -> Hs. cbn [normalizeName]. rewrite Hs. reflexivity.
  - intros parts ->. reflexivity.
  - intros [-> | ->]; reflexivity.
  - intros text -> Ht Hm _. cbn [normalizeGender]. rewrite Ht, Hm. reflexivity.
  - intros text -> Ht Hm. cbn [normalizeGender].
    rewrite Ht, Hm, (normalizeGender_never_Female_branch _ Hm). reflexivity.
  - destruct (kd_gender k) as [[|c t]|]; cbn; [reflexivity | discriminate | reflexivity].
Qed.

Lemma normalization_by_design_witness :
  name (mapKycData (Samples.kyc (NameString "Ravi Kumar") (Some "MALE")))
    = Some ["Ravi Kumar"]
  /\ name (mapKycData (Samples.kyc (NameArray ["Ravi"; "Kumar"]) None))
     = Some ["Ravi"; "Kumar"]
  /\ name (mapKycData (Samples.kyc NameMissing None)) = Some []
  /\ gender (mapKycData (Samples.kyc (NameString "Ravi Kumar") (Some "MALE")))
     = Some "Male"
  /\ gender (mapKycData (Samples.kyc NameMissing (Some "F"))) = Some "F"
  /\ gender (mapKycData (Samples.kyc NameMissing (Some ""))) = None.
Proof.
  pose proof (normalization_by_design
                (Samples.kyc (NameString "Ravi Kumar") (Some "MALE"))) as H1.
  pose proof (normalization_by_design (Samples.kyc (NameArray ["Ravi"; "Kumar"]) None)) as H2.
  pose proof (normalization_by_design (Samples.kyc NameMissing None)) as H3.
  pose proof (normalization_by_design (Samples.kyc NameMissing (Some "F"))) as H4.
  pose proof (normalization_by_design (Samples.kyc NameMissing (Some ""))) as H5.
  destruct H1 as (N1 & _ & _ & G1 & _ & _).
  destruct H2 as (_ & N2 & _).
  destruct H3 as (_ & _ & N3 & _).
  destruct H4 as (_ & _ & _ & _ & G4 & _).
  destruct H5 as (_ & _ & _ & _ & _ & G5).
  split; [| split; [| split; [| split; [| split]]]].
  - apply N1; reflexivity.
  - apply N2; reflexivity.
  - apply N3; left; reflexivity.
  - apply G1 with (text := "MALE"); reflexivity.
  - apply G4; reflexivity.
  - apply G5; reflexivity.
Defined.

End KycProperties.

(** ** The prefill merge of KYCForm *)

Module KYCFormProperties.

Import KYCForm.

Lemma mergePrefill_dateOfBirth (p : Kyc.PrefillData) (prev : FormDataState) :
  dateOfBirth (personalInfo (mergePrefill p prev))
  = Js.orStr (Kyc.dateOfBirth p) (dateOfBirth (personalInfo prev)).
Proof. reflexivity. Qed.

(** How an extraction reaches the record: the upload hands the mapped fields
    to the parent's callback, [ManualKYC] stores them in place of the previous
    ones and shows the form, and the form merges them. *)
Example extraction_reaches_the_form :
  let k := Samples.extraction (Some "01/01/1990") None in
  let t := FaceVerification.traceOf
             (FaceVerification.handleDocumentUpload
                (Some Samples.aadhaar) (FaceVerification.XrJson true (Some k))
                Samples.mounted) in
  let parent := ManualKYC.handlePrefillData (Kyc.mapKycData k) ManualKYC.initialState in
  In (FaceVerification.PrefillData (Kyc.mapKycData k)) t
  /\ ManualKYC.currentStep parent = ManualKYC.form
  /\ dateOfBirth
       (personalInfo (prefillEffect (Some (ManualKYC.formPrefillData parent)) Samples.blank))
     = "01/01/1990".
Proof.
  cbv zeta. split; [| split; reflexivity].
  vm_compute. do 5 right. left. reflexivity.
Qed.

(** C2, as stated, fails: the record holds the date of birth of a first
    extraction, and merging a second extraction replaces it.  The merge takes
    the prefill object and the previous record and nothing else, so there is
    no flag that could ask for it. *)
Lemma dateOfBirth_overwritten :
  let first := Kyc.mapKycData (Samples.extraction (Some "01/01/1990") None) in
  let second := Kyc.mapKycData (Samples.extraction (Some "15/08/1992") None) in
  let record := prefillEffect (Some first) Samples.blank in
  dateOfBirth (personalInfo record) = "01/01/1990"
  /\ dateOfBirth (personalInfo (prefillEffect (Some second) record)) = "15/08/1992".
Proof. split; reflexivity. Qed.

(** C2 (amended): in every merge of an extraction result into the record of
    the form, a non-empty extracted date of birth replaces the one in the
    record, whether or not the record already holds one, and an empty or
    absent extracted date of birth leaves the record's value as it was; no
    flag takes part.  The fields that the merge does not prefill are never
    changed by it.  The parent keeps the latest extraction only: its stored
    prefill object is replaced as a whole. *)
Theorem prefill_merge_latest_wins (k : Kyc.KycData) (prev : FormDataState) :
  let merged := prefillEffect (Some (Kyc.mapKycData k)) prev in
  (forall parent,
     ManualKYC.formPrefillData (ManualKYC.handlePrefillData (Kyc.mapKycData k) parent)
     = Kyc.mapKycData k)
  /\ (forall text, Js.or (Kyc.kd_date_of_birth k) (Kyc.kd_dob k) = Some text ->
                   Js.truthy (Some text) = true ->
                   dateOfBirth (personalInfo merged) = text)
  /\ (Js.truthy (Js.or (Kyc.kd_date_of_birth k) (Kyc.kd_dob k)) = false ->
      dateOfBirth (personalInfo merged) = dateOfBirth (personalInfo prev))
  /\ nationality (personalInfo merged) = nationality (personalInfo prev)
  /\ city (address (personalInfo merged)) = city (address (personalInfo prev))
  /\ state (address (personalInfo merged)) = state (address (personalInfo prev))
  /\ zipCode (address (personalInfo merged)) = zipCode (address (personalInfo prev))
  /\ country (address (personalInfo merged)) = country (address (personalInfo prev))
  /\ documentType (identification merged) = documentType (identification prev)
  /\ expiryDate (identification merged) = expiryDate (identification prev)
  /\ financialInfo merged = financialInfo prev.
Proof.
  cbn zeta. split.
  { intros parent. unfold ManualKYC.handlePrefillData.
    destruct (_ || _); reflexivity. }
  cbn [prefillEffect]. rewrite mergePrefill_dateOfBirth.
  cbn [Kyc.mapKycData Kyc.dateOfBirth]. rewrite JsFacts.orStr_or_null.
  split; [| split; [| repeat split]].
  - intros text -> Ht. destruct text; [discriminate | reflexivity].
  - intros Hf. rewrite JsFacts.orStr_truthy, Hf. reflexivity.
Qed.

Lemma prefill_merge_latest_wins_witness :
  let record := prefillEffect (Some (Kyc.mapKycData (Samples.extraction (Some "01/01/1990") None)))
                              Samples.blank in
  dateOfBirth (personalInfo
                 (prefillEffect (Some (Kyc.mapKycData (Samples.extraction None (Some "15/08/1992"))))
                                record)) = "15/08/1992"
  /\ dateOfBirth (personalInfo
                    (prefillEffect (Some (Kyc.mapKycData (Samples.extraction (Some "") None)))
                                   record)) = "01/01/1990".
Proof.
  cbv zeta. split.
  - apply (proj1 (proj2 (prefill_merge_latest_wins
                           (Samples.extraction None (Some "15/08/1992")) _)));
      reflexivity.
  - rewrite (proj1 (proj2 (proj2 (prefill_merge_latest_wins
                                    (Samples.extraction (Some "") None) _))));
      reflexivity.
Defined.

End KYCFormProperties.

(** ** The verification component *)

Module FaceVerificationProperties.

Import FaceVerification.

(** *** Proof tools *)

(** Case analysis on the innermost scrutinee of the goal. *)
Ltac break_inner x :=
  lazymatch x with
  | context [match ?y with _ => _ end] => break_inner y
  | _ => destruct x eqn:?
  end.

Ltac break_match :=
  match goal with
  | |- context [match ?x with _ => _ end] => break_inner x; cbv beta iota zeta
  end.

(** Unfold one event down to the primitive computations. *)
Ltac run_handler :=
  cbv [step dispatch commit handleStartCamera handleVerify handleDocumentUpload
       extractLeadsData prefillFormWithKYCData onResults intervalTick sendLivenessFrame
       livenessSettled effectCleanup effectSetup releaseAttached stopStream getUserMedia
       attach callOnVerified notify console emit update world bind ret throw tryCatch
       tryFinally withState withVideo withStreams withClosure withPending
       props st videoRef liveStreams nextStream closure pending auth_token
       worldOf traceOf fst snd].

(** Unfold a schedule of signals down to the primitive computations. *)
Ltac run_signals := cbv [play occur signal]; run_handler.

Ltac open_world w :=
  destruct w as [p [ca fd ld df lo ex sm ldone el va sl] v l s [c1 c2 c3] pe tok].

(** Turn a hypothesis [probing w = true], [subscribed w = true] or
    [idle w = true] on an opened world into equations on its fields. *)
Ltac use_situation H :=
  unfold probing, subscribed, idle in H;
  cbn [st cameraActive closure videoRef depsOf faceDetected livenessDone liveDetected
       pending] in H;
  repeat (apply andb_true_iff in H; let H' := fresh "H" in destruct H as [H H']);
  repeat match goal with
         | H : Deps_eqb _ _ = true |- _ =>
             apply andb_true_iff in H; destruct H as [H ?];
             apply andb_true_iff in H; destruct H as [H ?]
         | H : Bool.eqb _ _ = true |- _ => apply eqb_prop in H; cbn in H
         | H : negb _ = true |- _ => apply negb_true_iff in H
         | H : match ?v with Some _ => true | None => false end = true |- _ =>
             destruct v as [[?]|]; [| discriminate H]
         | H : match ?v with Some _ => false | None => true end = true |- _ =>
             destruct v; [discriminate H |]
         | H : (?n =? 0)%nat = true |- _ => destruct n; [| discriminate H]
         end; subst.

Ltac not_in :=
  let H := fresh "H" in
  intros H; repeat (destruct H as [H | H]; [discriminate |]); exact H.

(** *** Runs and traces *)

Lemma run_app (es1 es2 : list Event) (w : World) :
  run (es1 ++ es2) w
  = let '(w1, t1) := run es1 w in
    let '(w2, t2) := run es2 w1 in
    (w2, t1 ++ t2).
Proof.
  revert w. induction es1 as [|e es1 IH]; intros w; cbn [run app].
  - destruct (run es2 w). reflexivity.
  - destruct (step e w) as [w1 t1]. rewrite IH.
    destruct (run es1 w1) as [w2 t2]. destruct (run es2 w2) as [w3 t3].
    rewrite app_assoc. reflexivity.
Qed.

Lemma play_app (ss1 ss2 : list Signal) (w : World) :
  play (ss1 ++ ss2) w
  = let '(w1, t1) := play ss1 w in
    let '(w2, t2) := play ss2 w1 in
    (w2, t1 ++ t2).
Proof.
  revert w. induction ss1 as [|s ss1 IH]; intros w; cbn [play app].
  - destruct (play ss2 w). reflexivity.
  - destruct (occur s w) as [w1 t1]. rewrite IH.
    destruct (play ss1 w1) as [w2 t2]. destruct (play ss2 w2) as [w3 t3].
    rewrite app_assoc. reflexivity.
Qed.

(** A result that is rendered before the next signal is one [step]. *)
Lemma play_rendered_result (ctx : bool) (n : nat) (rest : list Signal) (w : World) :
  play (Result ctx n :: Rendered :: rest) w
  = let '(w1, t1) := step (Results ctx n) w in
    let '(w2, t2) := play rest w1 in
    (w2, t1 ++ t2).
Proof.
  cbn [play]. unfold occur, step. cbn [signal].
  destruct (dispatch (Results ctx n) w) as [[w1 t1] c1].
  destruct (commit w1) as [[w2 t2] c2].
  destruct (play rest w2) as [w3 t3]. rewrite app_assoc. reflexivity.
Qed.

Lemma requests_app (a b : list Effect) : requests (a ++ b) = requests a ++ requests b.
Proof. apply flat_map_app. Qed.

Lemma livenessSubmissions_app (a b : list Effect) :
  livenessSubmissions (a ++ b) = livenessSubmissions a ++ livenessSubmissions b.
Proof. unfold livenessSubmissions. rewrite requests_app. apply filter_app. Qed.

Lemma presenceEvents_app (a b : list Effect) :
  presenceEvents (a ++ b) = presenceEvents a ++ presenceEvents b.
Proof. apply flat_map_app. Qed.

Create Rewrite HintDb traces.
#[local] Hint Rewrite requests_app livenessSubmissions_app presenceEvents_app
  length_app app_nil_r : traces.

Lemma forallb_repeat {A} (f : A -> bool) (x : A) (n : nat) :
  f x = true -> forallb f (repeat x n) = true.
Proof. intros H. induction n as [|n IH]; cbn; [reflexivity | now rewrite H, IH]. Qed.

(** *** C1: the match is gated behind liveness *)

Lemma handleVerify_waits (cap : Capture) (reply : VerifyReply) (w : World) :
  liveDetected (st w) = false ->
  exists msg,
    handleVerify cap reply w
    = (withState (setStatusMsg msg) w, [Console ("Status: " ++ msg)], Normal tt).
Proof.
  intros Hlive. unfold handleVerify, bind, world.
  destruct (documentFile (st w)) as [doc|].
  - rewrite Hlive. cbn. eexists. reflexivity.
  - cbn. eexists. reflexivity.
Qed.

Lemma step_verify_request (e : Event) (w : World) :
  verifyRequests (snd (step e w)) <> [] ->
  (exists cap reply, e = Verify cap reply) /\ liveDetected (st w) = true.
Proof.
  destruct w as [p s v l n c pe tok].
  destruct e; run_handler.
  all: repeat break_match.
  all: cbn.
  all: try congruence.
  all: intros _; split; [eauto | apply negb_false_iff; assumption].
Qed.

Lemma step_liveDetected (e : Event) (w : World) :
  liveDetected (st (fst (step e w))) = true ->
  liveDetected (st w) = true
  \/ exists reason frames, e = LivenessReplied (LrJson true reason frames).
Proof.
  destruct w as [p s v l n c pe tok].
  destruct e; run_handler.
  all: repeat break_match.
  all: cbn.
  all: try (intros; left; assumption).
  all: try discriminate.
  all: try (intros; right; eexists; eexists; reflexivity).
Qed.

Lemma run_liveDetected (es : list Event) (w : World) :
  liveDetected (st (fst (run es w))) = true ->
  liveDetected (st w) = true
  \/ exists reason frames, In (LivenessReplied (LrJson true reason frames)) es.
Proof.
  revert w. induction es as [|e es IH]; intros w; cbn [run].
  - intros H. left. exact H.
  - destruct (step e w) as [w1 t1] eqn:E1.
    destruct (run es w1) as [w2 t2] eqn:E2. cbn [fst].
    intros H.
    assert (H2 : liveDetected (st (fst (run es w1))) = true) by (rewrite E2; exact H).
    apply IH in H2. destruct H2 as [H2 | (reason & frames & Hin)].
    + assert (H1 : liveDetected (st (fst (step e w))) = true) by (rewrite E1; exact H2).
      apply step_liveDetected in H1. destruct H1 as [H1 | (reason & frames & ->)].
      * left. exact H1.
      * right. exists reason, frames. left. reflexivity.
    + right. exists reason, frames. right. exact Hin.
Qed.

(** C1: [handleVerify] invoked while [liveDetected] is false returns after
    showing a notice: it sends nothing and changes no state variable other
    than the status line; the verify button is disabled in that state.  No
    event other than a verification started with [liveDetected] true issues
    a match request, and [liveDetected] is true only after a liveness reply
    with [live: true] has been received. *)
Theorem verify_requires_confirmed_liveness :
  (forall cap reply w,
     liveDetected (st w) = false ->
     verifyDisabled (st w) = true
     /\ exists msg,
         handleVerify cap reply w
         = (withState (setStatusMsg msg) w, [Console ("Status: " ++ msg)], Normal tt))
  /\ (forall e w,
        verifyRequests (snd (step e w)) <> [] ->
        (exists cap reply, e = Verify cap reply) /\ liveDetected (st w) = true)
  /\ (forall p token es,
        liveDetected (st (fst (run es (initial p token)))) = true ->
        exists reason frames, In (LivenessReplied (LrJson true reason frames)) es).
Proof.
  split; [| split; [exact step_verify_request |]].
  - intros cap reply w H. split; [| exact (handleVerify_waits cap reply w H)].
    unfold verifyDisabled. rewrite H. cbn [negb]. rewrite orb_true_r. reflexivity.
  - intros p token es H. apply run_liveDetected in H.
    destruct H as [H | H]; [discriminate H | exact H].
Qed.

Lemma verify_requires_confirmed_liveness_witness :
  (verifyDisabled (st Samples.sampling) = true
   /\ exists msg,
       handleVerify Captured Samples.matched Samples.sampling
       = (withState (setStatusMsg msg) Samples.sampling,
          [Console ("Status: " ++ msg)], Normal tt))
  /\ ((exists cap reply, Verify Captured Samples.matched = Verify cap reply)
      /\ liveDetected (st Samples.confirmed) = true)
  /\ (exists reason frames,
        In (LivenessReplied (LrJson true reason frames)) Samples.session).
Proof.
  destruct verify_requires_confirmed_liveness as (A & B & C).
  split; [| split].
  - apply A. reflexivity.
  - apply B. vm_compute. discriminate.
  - apply (C Samples.parent (Some "token-of-asha")). reflexivity.
Defined.

(** *** C6: local validation of an upload *)

(** A well-formed image below the ceiling does reach the network. *)
Example valid_upload_is_submitted :
  requests (traceOf (handleDocumentUpload (Some Samples.aadhaar) Samples.extracted
                                          Samples.mounted))
  = [PostExtract Samples.aadhaar "Bearer token-of-asha"].
Proof. reflexivity. Qed.

(** C6: a file whose type does not start with "image/", or whose size is
    above 5 * 1024 * 1024 bytes, is turned away before anything is sent:
    in [FaceVerification] the handler only shows a notice, so that the trace
    holds no request and no prefill callback and every state variable other
    than the status line keeps its value; in [KYCAgent] the handler only adds
    an error bubble to the conversation. *)
Theorem invalid_upload_rejected (file : File) (reply : ExtractReply) :
  Js.startsWith (file_type file) "image/" = false
  \/ (maxDocumentSize < file_size file)%N ->
  (forall w,
     exists msg,
       handleDocumentUpload (Some file) reply w
       = (withState (setStatusMsg msg) w, [Console ("Status: " ++ msg)], Normal tt))
  /\ (forall token s,
        exists note,
          KYCAgent.handleDocumentUpload token file reply s
          = (KYCAgent.addMessage KYCAgent.agent (KYCAgent.ErrorNote note) s, [])).
Proof.
  intros H. split.
  - intros w. unfold handleDocumentUpload.
    destruct (Js.startsWith (file_type file) "image/") eqn:E; cbn [negb].
    + destruct H as [H | H]; [discriminate |].
      apply N.ltb_lt in H. rewrite H. eexists. reflexivity.
    + eexists. reflexivity.
  - intros token s. unfold KYCAgent.handleDocumentUpload.
    destruct (Js.startsWith (file_type file) "image/") eqn:E; cbn [negb].
    + destruct H as [H | H]; [discriminate |].
      apply N.ltb_lt in H. rewrite H. eexists. reflexivity.
    + eexists. reflexivity.
Qed.

Lemma invalid_upload_rejected_witness :
  (exists msg,
     handleDocumentUpload (Some Samples.pdf) Samples.extracted Samples.confirmed
     = (withState (setStatusMsg msg) Samples.confirmed,
        [Console ("Status: " ++ msg)], Normal tt))
  /\ (exists note,
        KYCAgent.handleDocumentUpload None Samples.oversized Samples.extracted
          (KYCAgent.mkState [] KYCAgent.document_upload None None false false false None)
        = (KYCAgent.addMessage KYCAgent.agent (KYCAgent.ErrorNote note)
             (KYCAgent.mkState [] KYCAgent.document_upload None None false false false None),
           [])).
Proof.
  split.
  - apply (invalid_upload_rejected Samples.pdf Samples.extracted). left. reflexivity.
  - apply (invalid_upload_rejected Samples.oversized Samples.extracted). right. reflexivity.
Defined.

(** *** C7: starting the camera again *)






(** *** C8: a rejected camera acquisition *)

Lemma step_idle (e : Event) (w : World) :
  idle w = true -> notAcquired e = true ->
  idle (fst (step e w)) = true
  /\ presenceEvents (snd (step e w)) = []
  /\ livenessSubmissions (snd (step e w)) = []
  /\ ~ In CameraStart (snd (step e w)).
Proof.
  open_world w. intros H He. use_situation H.
  destruct e as [gum play | ctx n | cap | reply | input reply | cap reply];
    try (destruct gum; [discriminate He |]); destruct ldone.
  all: run_handler; repeat break_match.
  all: cbn; repeat split; try reflexivity; try not_in.
  all: cbn in *; congruence.
Qed.

Lemma run_idle (es : list Event) (w : World) :
  idle w = true -> forallb notAcquired es = true ->
  idle (fst (run es w)) = true
  /\ presenceEvents (snd (run es w)) = []
  /\ livenessSubmissions (snd (run es w)) = []
  /\ ~ In CameraStart (snd (run es w)).
Proof.
  revert w. induction es as [|e es IH]; intros w Hw Hes; cbn [run].
  - cbn. repeat split; auto.
  - cbn [forallb] in Hes. apply andb_true_iff in Hes. destruct Hes as [He Hes].
    destruct (step_idle e w Hw He) as (S1 & S2 & S3 & S4).
    destruct (step e w) as [w1 t1]. cbn [fst snd] in *.
    destruct (IH w1 S1 Hes) as (R1 & R2 & R3 & R4).
    destruct (run es w1) as [w2 t2]. cbn [fst snd] in *.
    autorewrite with traces. rewrite S2, S3, R2, R3.
    repeat split; auto. intros H. apply in_app_or in H. tauto.
Qed.

Lemma rejected_start (message : string) (play : PlayResult) (w : World) :
  idle w = true ->
  step (StartCamera (GumFail message) play) w
  = (w, [GetUserMedia; Console "Camera access error:";
         Alert ("Camera error: " ++ message)]).
Proof. open_world w. intros H. use_situation H. destruct ldone; reflexivity. Qed.

Lemma idle_inactive (w : World) : idle w = true -> cameraActive (st w) = false.
Proof. open_world w. intros H. use_situation H. reflexivity. Qed.

(** C8, as stated, fails: after the rejection the component is exactly as it
    was before the attempt, with no failure recorded, and it is not at an
    end: a later start succeeds, a face is detected and a liveness frame is
    submitted. *)
Lemma permission_denied_is_not_terminal :
  let denied := StartCamera (GumFail "Permission denied") PlayOk in
  fst (step denied Samples.mounted) = Samples.mounted
  /\ (let r := run (denied :: Samples.approach ++ [Tick Captured]) Samples.mounted in
      cameraActive (st (fst r)) = true
      /\ presenceEvents (snd r) = [true]
      /\ livenessSubmissions (snd r) = [PostLiveness "user123"]).
Proof. repeat split. Qed.

(** C8 (amended): when camera acquisition is rejected, [handleStartCamera]
    shows the error message in an alert and leaves the component as it was:
    the camera stays inactive, no failure is recorded and a start can be
    attempted again.  As long as no acquisition has succeeded, the detector
    is never started, no presence result is acted on and no liveness frame
    is submitted. *)
Theorem rejected_acquisition_stays_idle (p : Props) (token : Js.field) (es : list Event) :
  forallb notAcquired es = true ->
  let r := run es (initial p token) in
  cameraActive (st (fst r)) = false
  /\ presenceEvents (snd r) = []
  /\ livenessSubmissions (snd r) = []
  /\ ~ In CameraStart (snd r)
  /\ (forall message play,
        step (StartCamera (GumFail message) play) (fst r)
        = (fst r, [GetUserMedia; Console "Camera access error:";
                   Alert ("Camera error: " ++ message)])).
Proof.
  intros Hes. cbv zeta.
  destruct (run_idle es (initial p token) eq_refl Hes) as (R1 & R2 & R3 & R4).
  repeat split; try assumption.
  - apply idle_inactive. exact R1.
  - intros message play. apply rejected_start. exact R1.
Qed.

Lemma rejected_acquisition_stays_idle_witness :
  let es := [StartCamera (GumFail "Permission denied") PlayOk;
             Results true 1; Tick Captured;
             Upload (Some Samples.aadhaar) Samples.extracted;
             Verify Captured Samples.matched] in
  let r := run es Samples.mounted in
  cameraActive (st (fst r)) = false
  /\ presenceEvents (snd r) = []
  /\ livenessSubmissions (snd r) = [].
Proof.
  cbv zeta.
  pose proof (rejected_acquisition_stays_idle Samples.parent (Some "token-of-asha")
                [StartCamera (GumFail "Permission denied") PlayOk;
                 Results true 1; Tick Captured;
                 Upload (Some Samples.aadhaar) Samples.extracted;
                 Verify Captured Samples.matched] eq_refl) as (A & B & C & _).
  split; [exact A |]. split; [exact B | exact C].
Defined.

(** *** C9: presence is debounced *)

Lemma step_Results (n : nat) (w : World) :
  subscribed w = true ->
  subscribed (fst (step (Results true n) w)) = true
  /\ faceDetected (st (fst (step (Results true n) w))) = present n
  /\ presenceEvents (snd (step (Results true n) w))
     = if Bool.eqb (present n) (faceDetected (st w)) then [] else [present n].
Proof.
  open_world w. intros H. use_situation H.
  match goal with |- context [Some {| srcObject := ?o |}] => destruct o end;
    destruct n, fd, ldone; cbn; repeat split; reflexivity.
Qed.

Lemma step_Results_no_context (n : nat) (w : World) :
  subscribed w = true -> step (Results false n) w = (w, []).
Proof.
  open_world w. intros H. use_situation H. destruct fd, ldone; reflexivity.
Qed.

(** C9, as stated, fails: the callback compares a result with the presence
    captured by the effect run that registered it, so two identical results
    that arrive before the component has re-rendered are both announced,
    where debouncing announces one change; and a change that is delivered
    without a canvas context is not announced at all. *)
Lemma identical_results_announced_twice :
  let w := fst (run [StartCamera GumOk PlayOk] Samples.mounted) in
  subscribed w = true
  /\ presenceEvents (snd (play [Result true 1; Result true 1; Rendered] w)) = [true; true]
  /\ transitions (faceDetected (st w)) (map present [1; 1]) = [true]
  /\ presenceEvents (snd (play [Result false 1; Rendered] w)) = []
  /\ transitions (faceDetected (st w)) (map present [1]) = [true].
Proof. repeat split. Qed.

(** C9 (amended): for every sequence of results delivered while the
    detection effect is running, each of them rendered before the next one
    arrives, a result that comes without a canvas context is ignored, and
    the transitions announced are exactly the changes of presence from one
    of the other results to the next, starting from the current
    [faceDetected]: one per change, none for a repeated result. *)
Theorem presence_debounced (rs : list (bool * nat)) (w : World) :
  subscribed w = true ->
  presenceEvents (snd (play (flat_map renderedResult rs) w))
  = transitions (faceDetected (st w)) (map (fun r => present (snd r)) (filter fst rs)).
Proof.
  revert w. induction rs as [|[ctx n] rs IH]; intros w Hw; [reflexivity |].
  cbn [flat_map renderedResult fst snd app]. rewrite play_rendered_result.
  destruct ctx; cbn [filter fst map snd transitions].
  - destruct (step_Results n w Hw) as (Hs & Hf & He).
    destruct (step (Results true n) w) as [w1 t1]. cbn [fst snd] in Hs, Hf, He.
    specialize (IH w1 Hs). destruct (play (flat_map renderedResult rs) w1) as [w2 t2].
    cbn [snd] in IH |- *. rewrite presenceEvents_app, He, IH, Hf.
    destruct (Bool.eqb (present n) (faceDetected (st w))) eqn:E.
    + apply eqb_prop in E. rewrite E. reflexivity.
    + reflexivity.
  - rewrite (step_Results_no_context n w Hw).
    specialize (IH w Hw). destruct (play (flat_map renderedResult rs) w) as [w2 t2].
    exact IH.
Qed.

Lemma presence_debounced_witness :
  let w := fst (run [StartCamera GumOk PlayOk] Samples.mounted) in
  subscribed w = true
  /\ presenceEvents
       (snd (play (flat_map renderedResult
                     [(true, 1); (true, 1); (false, 0); (true, 1); (true, 0); (true, 0);
                      (true, 2); (true, 1)]) w))
     = [true; false; true].
Proof.
  cbv zeta. split; [reflexivity |].
  rewrite (presence_debounced
             [(true, 1); (true, 1); (false, 0); (true, 1); (true, 0); (true, 0);
              (true, 2); (true, 1)]
             (fst (run [StartCamera GumOk PlayOk] Samples.mounted)) eq_refl).
  reflexivity.
Defined.

(** *** C4 and C5: the liveness interval *)

(** Once the render after the confirmation has re-subscribed the effect,
    the interval samples no more. *)
Lemma ticked_when_done (cap : Capture) (w : World) :
  subscribed w = true -> livenessDone (st w) = true ->
  occur (Ticked cap) w = (w, []).
Proof.
  open_world w. intros H Hd. cbn in Hd. subst ldone. use_situation H.
  destruct fd; reflexivity.
Qed.

Lemma ticks_after_render (caps : list Capture) (w : World) :
  subscribed w = true -> livenessDone (st w) = true ->
  play (map Ticked caps) w = (w, []).
Proof.
  intros Hs Hd. induction caps as [|cap caps IH]; cbn [map play].
  - reflexivity.
  - rewrite (ticked_when_done cap w Hs Hd), IH. reflexivity.
Qed.

Section Probing.

(** A world in which the interval samples. *)
Variable w : World.
Hypothesis sampling : probing w = true.

Lemma tick_when_probing :
  step (Tick Captured) w
  = (withPending (S (pending w)) w, [Fetch (PostLiveness livenessUserId)]).
Proof. revert sampling. open_world w. intros H. use_situation H. reflexivity. Qed.

Lemma failed_reply (reply : LivenessReply) :
  failed reply = true ->
  step (LivenessReplied reply) (withPending (S (pending w)) w)
  = (w, [Console "Liveness error:"]).
Proof.
  revert sampling. open_world w. intros H Hf. use_situation H.
  destruct reply; try discriminate Hf; reflexivity.
Qed.

Lemma failed_rounds (fs : list LivenessReply) :
  forallb failed fs = true ->
  run (rounds fs) w
  = (w, flat_map (fun _ => [Fetch (PostLiveness livenessUserId);
                            Console "Liveness error:"]) fs).
Proof.
  induction fs as [|f fs IH]; cbn [rounds flat_map forallb]; intros Hf.
  - reflexivity.
  - apply andb_true_iff in Hf. destruct Hf as [Hf Hfs].
    cbn [app run]. rewrite tick_when_probing, (failed_reply f Hf).
    fold (rounds fs). rewrite (IH Hfs). reflexivity.
Qed.

(** The sample that is answered with [live: true]: both flags are set by
    the reply; a tick that fires before the render still samples, since the
    interval of the last effect run is cleared only by the render; the
    render re-subscribes the effect and changes no state. *)
Lemma live_round (reason : string) (frames : option N) :
  let r := play [Ticked Captured; Replied (LrJson true reason frames)] w in
  liveDetected (st (fst r)) = true
  /\ livenessDone (st (fst r)) = true
  /\ livenessSubmissions (snd r) = [PostLiveness livenessUserId]
  /\ livenessSubmissions (snd (occur (Ticked Captured) (fst r)))
     = [PostLiveness livenessUserId]
  /\ subscribed (fst (occur Rendered (fst r))) = true
  /\ st (fst (occur Rendered (fst r))) = st (fst r)
  /\ livenessSubmissions (snd (occur Rendered (fst r))) = [].
Proof.
  revert sampling. open_world w. intros Hp. use_situation Hp.
  match goal with |- context [Some {| srcObject := ?o |}] => destruct o end;
    repeat split; reflexivity.
Qed.

Lemma settled_collecting_round (k : N) :
  let r := play (settledRound (collecting k)) w in
  probing (fst r) = true
  /\ liveDetected (st (fst r)) = liveDetected (st w)
  /\ livenessSubmissions (snd r) = [PostLiveness livenessUserId].
Proof.
  revert sampling. open_world w. intros Hp. use_situation Hp.
  unfold collecting, settledRound. run_signals. cbn.
  destruct (k mod 5 =? 0)%N; repeat split; reflexivity.
Qed.

End Probing.

Lemma failed_trace (fs : list LivenessReply) :
  let t := flat_map (fun _ : LivenessReply =>
                       [Fetch (PostLiveness livenessUserId); Console "Liveness error:"]) fs in
  List.length (livenessSubmissions t) = List.length fs
  /\ forall e, In e t ->
               e = Fetch (PostLiveness livenessUserId) \/ e = Console "Liveness error:".
Proof.
  cbv zeta. induction fs as [|f fs [IH1 IH2]]; cbn [flat_map].
  - split; [reflexivity | intros e []].
  - split.
    + rewrite livenessSubmissions_app, length_app, IH1. reflexivity.
    + intros e H. apply in_app_or in H.
      destruct H as [[<- | [<- | []]] | H]; auto.
Qed.

Lemma settled_collecting_rounds (ks : list N) (w : World) :
  probing w = true ->
  let r := play (flat_map settledRound (map collecting ks)) w in
  probing (fst r) = true
  /\ liveDetected (st (fst r)) = liveDetected (st w)
  /\ List.length (livenessSubmissions (snd r)) = List.length ks.
Proof.
  revert w. induction ks as [|k ks IH]; intros w Hp.
  - cbn. auto.
  - cbn [map flat_map]. cbv zeta. rewrite play_app.
    destruct (settled_collecting_round w Hp k) as (H1 & H2 & H3).
    destruct (play (settledRound (collecting k)) w) as [w1 t1]. cbn [fst snd] in *.
    destruct (IH w1 H1) as (I1 & I2 & I3).
    destruct (play (flat_map settledRound (map collecting ks)) w1) as [w2 t2].
    cbn [fst snd] in *.
    autorewrite with traces. rewrite H3, I3.
    repeat split; try assumption; try congruence.
Qed.

(** C4, as stated, fails: the interval does not wait for a reply, so when
    six ticks pass before the replies come back, the probe has received
    [collecting] four times and then [live: true] and liveness is confirmed,
    but six frames have been submitted, not five. *)
Lemma six_submissions_for_five_replies :
  let r := run Samples.overlapping Samples.sampling in
  liveDetected (st (fst r)) = true
  /\ livenessDone (st (fst r)) = true
  /\ List.length (livenessSubmissions (snd r)) = 6.
Proof. repeat split. Qed.

(** C4 (amended): when every reply arrives, and is rendered, before the
    interval fires again and the probe receives [collecting] four times and
    then [live: true], liveness is still open after the fourth reply and is
    confirmed by the fifth, and exactly five frames have been submitted by
    then.  Once the component has re-rendered from that reply, no tick
    submits anything or changes any state; a tick that fires between the
    reply and the render still submits a frame, the sixth. *)
Theorem five_rounds_confirm_liveness (k1 k2 k3 k4 : N) (reason : string)
  (frames : option N) (caps : list Capture) (w : World) :
  probing w = true -> liveDetected (st w) = false ->
  let four := flat_map settledRound (map collecting [k1; k2; k3; k4]) in
  let fifth := [Ticked Captured; Replied (LrJson true reason frames)] in
  let before := play four w in
  let after := play (four ++ fifth) w in
  let later := play (four ++ fifth ++ Rendered :: map Ticked caps) w in
  let early := play (four ++ fifth ++ [Ticked Captured]) w in
  (liveDetected (st (fst before)) = false
   /\ livenessDone (st (fst before)) = false
   /\ List.length (livenessSubmissions (snd before)) = 4)
  /\ (liveDetected (st (fst after)) = true
      /\ livenessDone (st (fst after)) = true
      /\ List.length (livenessSubmissions (snd after)) = 5)
  /\ (st (fst later) = st (fst after)
      /\ List.length (livenessSubmissions (snd later)) = 5)
  /\ List.length (livenessSubmissions (snd early)) = 6.
Proof.
  intros Hp Hl. cbv zeta.
  destruct (settled_collecting_rounds [k1; k2; k3; k4] w Hp) as (H1 & H3 & H4).
  rewrite !app_assoc, !play_app.
  destruct (play (flat_map settledRound (map collecting [k1; k2; k3; k4])) w) as [w1 t1].
  cbn [fst snd] in *.
  assert (Hd : livenessDone (st w1) = false).
  { unfold probing in H1. apply andb_true_iff in H1. destruct H1 as [_ H1].
    apply negb_true_iff. exact H1. }
  split; [split; [congruence | split; [exact Hd | exact H4]] |].
  destruct (live_round w1 H1 reason frames) as (L1 & L2 & L3 & L4 & L5 & L6 & L7).
  destruct (play [Ticked Captured; Replied (LrJson true reason frames)] w1) as [w2 t2].
  cbn [fst snd] in *.
  cbn [play].
  destruct (occur (Ticked Captured) w2) as [w3 t3].
  destruct (occur Rendered w2) as [w4 t4]. cbn [fst snd] in *.
  assert (L8 : livenessDone (st w4) = true) by (rewrite L6; exact L2).
  rewrite (ticks_after_render caps w4 L5 L8).
  cbn [fst snd]. autorewrite with traces. rewrite H4, L3, L4, L7.
  repeat split; assumption || reflexivity.
Qed.

Lemma five_rounds_confirm_liveness_witness :
  let four := flat_map settledRound (map collecting [1; 2; 3; 4]%N) in
  let fifth := [Ticked Captured; Replied (LrJson true "" None)] in
  let later := play (four ++ fifth ++ Rendered :: map Ticked [Captured; Captured; Captured])
                    Samples.sampling in
  let early := play (four ++ fifth ++ [Ticked Captured]) Samples.sampling in
  probing Samples.sampling = true
  /\ liveDetected (st (fst (play four Samples.sampling))) = false
  /\ liveDetected (st (fst (play (four ++ fifth) Samples.sampling))) = true
  /\ List.length (livenessSubmissions (snd later)) = 5
  /\ List.length (livenessSubmissions (snd early)) = 6.
Proof.
  cbv zeta.
  pose proof (five_rounds_confirm_liveness 1 2 3 4 "" None [Captured; Captured; Captured]
                Samples.sampling eq_refl eq_refl) as ((B & _) & (A & _) & (_ & L) & E).
  split; [reflexivity |]. split; [exact B |]. split; [exact A |]. split; [exact L | exact E].
Defined.

(** C5, as stated, fails: there is no number of consecutive failures after
    which the probe gives up; after any number of them the next tick submits
    one more frame. *)
Lemma errors_are_retried_without_bound :
  ~ exists max : nat,
      forall n, max < n ->
        livenessSubmissions
          (snd (step (Tick Captured)
                     (fst (run (rounds (repeat LrNotOk n)) Samples.sampling))))
        = [].
Proof.
  intros [max H]. specialize (H (S max) (Nat.lt_succ_diag_r max)).
  rewrite (failed_rounds Samples.sampling eq_refl (repeat LrNotOk (S max))
             (forallb_repeat failed LrNotOk (S max) eq_refl)) in H.
  discriminate H.
Qed.

(** C5 (amended): during liveness probing every transport or service error
    is passed over silently: it is logged to the console and changes
    nothing.  There is no bound on consecutive errors and no outcome
    [ServiceError]: after any number of failed samples the component is as
    it was before them, one frame has been submitted per sample, and the next
    tick submits another one. *)
Theorem liveness_errors_are_retried (fs : list LivenessReply) (w : World) :
  probing w = true -> forallb failed fs = true ->
  let r := run (rounds fs) w in
  fst r = w
  /\ List.length (livenessSubmissions (snd r)) = List.length fs
  /\ (forall e, In e (snd r) ->
                e = Fetch (PostLiveness livenessUserId) \/ e = Console "Liveness error:")
  /\ livenessSubmissions (snd (step (Tick Captured) (fst r)))
     = [PostLiveness livenessUserId].
Proof.
  intros Hp Hf. cbv zeta. rewrite (failed_rounds w Hp fs Hf). cbn [fst snd].
  destruct (failed_trace fs) as [T1 T2].
  split; [reflexivity |]. split; [exact T1 |]. split; [exact T2 |].
  rewrite (tick_when_probing w Hp). reflexivity.
Qed.

Lemma liveness_errors_are_retried_witness :
  let fs := [LrNotOk; LrRejected "Failed to fetch"; LrNotOk] in
  let r := run (rounds fs) Samples.sampling in
  fst r = Samples.sampling
  /\ List.length (livenessSubmissions (snd r)) = 3
  /\ livenessSubmissions (snd (step (Tick Captured) (fst r)))
     = [PostLiveness livenessUserId].
Proof.
  cbv zeta.
  pose proof (liveness_errors_are_retried [LrNotOk; LrRejected "Failed to fetch"; LrNotOk]
                Samples.sampling eq_refl eq_refl) as (A & B & _ & D).
  split; [exact A |]. split; [exact B | exact D].
Defined.

(** *** C10: the identifier of a liveness submission *)

Lemma step_liveness_user_id (e : Event) (w : World) :
  Forall (fun r => r = PostLiveness "user123") (livenessSubmissions (snd (step e w))).
Proof.
  destruct w as [p s v l n c pe tok].
  destruct e; run_handler.
  all: repeat break_match.
  all: cbn.
  all: repeat constructor.
Qed.

Lemma run_liveness_user_id (es : list Event) (w : World) :
  Forall (fun r => r = PostLiveness "user123") (livenessSubmissions (snd (run es w))).
Proof.
  revert w. induction es as [|e es IH]; intros w; cbn [run].
  - constructor.
  - pose proof (step_liveness_user_id e w) as Hs.
    destruct (step e w) as [w1 t1]. specialize (IH w1).
    destruct (run es w1) as [w2 t2]. cbn [snd] in *.
    rewrite livenessSubmissions_app. apply Forall_app. split; assumption.
Qed.

(** The property is not empty: a running session does submit frames. *)
Example liveness_frames_are_submitted :
  livenessSubmissions (snd (run Samples.session Samples.mounted))
  = repeat (PostLiveness "user123") 5.
Proof. reflexivity. Qed.

(** C10: every liveness submission of every run, whatever the props, the
    stored token and the state of the component, carries the user id
    "user123"; so any two submissions, of one session or of two sessions of
    different users, carry the same identifier. *)
Theorem liveness_user_id_is_fixed :
  (forall es w,
     Forall (fun r => r = PostLiveness "user123") (livenessSubmissions (snd (run es w))))
  /\ (forall es1 w1 es2 w2 id1 id2,
        In (PostLiveness id1) (requests (snd (run es1 w1))) ->
        In (PostLiveness id2) (requests (snd (run es2 w2))) ->
        id1 = id2).
Proof.
  split; [exact run_liveness_user_id |].
  intros es1 w1 es2 w2 id1 id2 H1 H2.
  assert (F : forall es w id, In (PostLiveness id) (requests (snd (run es w))) ->
                              id = "user123").
  { intros es w id H.
    pose proof (run_liveness_user_id es w) as Hall. rewrite Forall_forall in Hall.
    specialize (Hall (PostLiveness id)). unfold livenessSubmissions in Hall.
    rewrite filter_In in Hall. specialize (Hall (conj H eq_refl)).
    injection Hall as ->. reflexivity. }
  rewrite (F _ _ _ H1), (F _ _ _ H2). reflexivity.
Qed.

Lemma liveness_user_id_is_fixed_witness :
  auth_token Samples.mounted <> auth_token Samples.mountedOther
  /\ "user123" = "user123".
Proof.
  split; [discriminate |].
  apply (proj2 liveness_user_id_is_fixed
           (Samples.approach ++ [Tick Captured]) Samples.mounted
           (Samples.approach ++ [Tick Captured; Tick Captured]) Samples.mountedOther).
  - vm_compute. left. reflexivity.
  - vm_compute. left. reflexivity.
Defined.

End FaceVerificationProperties.

(** ** FaceVerification: outcomes and invariants *)

Module FaceVerificationOutcomes.

Import FaceVerification.
Import FaceVerificationProperties.
Import Observing.

(** *** The face match *)

(** X1: a verification started with a document and confirmed liveness always
    ends: [loading] is false again and [verificationAttempted] is set.  The
    match request goes out exactly when the selfie could be captured, with
    the uploaded document; the parent's [onVerified], when given, is called
    exactly once, with [true] only if the selfie was captured and the reply
    was an ok response with [verified], and with the extracted leads.  The
    document and the liveness flag are kept, so the user may try again. *)
Theorem verify_attempt_outcome (doc : File) (cap : Capture) (reply : VerifyReply) (w : World) :
  documentFile (st w) = Some doc -> liveDetected (st w) = true ->
  let r := handleVerify cap reply w in
  loading (st (worldOf r)) = false
  /\ verificationAttempted (st (worldOf r)) = true
  /\ requests (traceOf r)
     = (if selfie w cap then [PostVerify doc (verifyAuthorization (auth_token w))] else [])
  /\ callbacks (traceOf r)
     = (if onVerified (props w)
        then [(selfie w cap && matches reply, extractedLeads (st w))] else [])
  /\ documentFile (st (worldOf r)) = Some doc
  /\ liveDetected (st (worldOf r)) = true
  /\ snd r = Normal tt.
Proof.
  open_world w. cbn [st documentFile liveDetected]. intros -> ->. cbv zeta.
  destruct p as [ov pf]. unfold selfie, matches.
  destruct v as [v|], cap, ov; try (run_handler; cbn; repeat split; reflexivity).
  all: destruct reply as [m | status text verified sim];
    try (run_handler; cbn; repeat split; reflexivity).
  all: run_handler; destruct (status =? 401)%N eqn:E401;
    [apply N.eqb_eq in E401; subst status; cbn; repeat split; reflexivity |].
  all: unfold responseOk; destruct ((200 <=? status)%N && (status <=? 299)%N), verified;
    cbn; repeat split; reflexivity.
Qed.

Lemma verify_attempt_outcome_witness :
  documentFile (st Samples.confirmed) = Some Samples.aadhaar
  /\ liveDetected (st Samples.confirmed) = true
  /\ loading (st (worldOf (handleVerify Captured Samples.matched Samples.confirmed))) = false
  /\ verificationAttempted
       (st (worldOf (handleVerify Captured Samples.matched Samples.confirmed))) = true.
Proof.
  assert (D : documentFile (st Samples.confirmed) = Some Samples.aadhaar)
    by (vm_compute; reflexivity).
  assert (L : liveDetected (st Samples.confirmed) = true) by (vm_compute; reflexivity).
  split; [exact D | split; [exact L |]].
  destruct (verify_attempt_outcome Samples.aadhaar Captured Samples.matched
              Samples.confirmed D L) as (A & B & _).
  split; [exact A | exact B].
Defined.

(** Without a document, an event that uploads none leaves the component
    without one and requests no match. *)
Lemma step_without_document (e : Event) (w : World) :
  documentFile (st w) = None -> uploads e = false ->
  documentFile (st (fst (step e w))) = None
  /\ verifyRequests (snd (step e w)) = [].
Proof.
  destruct w as [p s v l n c pe tok]. cbn [st]. intros Hd He.
  destruct e as [gum play | ctx k | cap | reply | input reply | cap reply].
  5: { destruct input as [f|]; cbn in He.
       - unfold accepted in He. run_handler.
         destruct (Js.startsWith (file_type f) "image/"); cbn [negb andb] in *.
         + destruct (maxDocumentSize <? file_size f)%N; [| discriminate He].
           repeat break_match; cbn; split; solve [assumption | reflexivity].
         + repeat break_match; cbn; split; solve [assumption | reflexivity].
       - run_handler. repeat break_match; cbn; split; solve [assumption | reflexivity]. }
  all: run_handler; rewrite ?Hd; repeat break_match; cbn; split;
    solve [assumption | reflexivity].
Qed.

(** X2: as long as no accepted file has been uploaded, the component holds
    no document and no match request is ever sent, whatever else happens
    (camera, detection, liveness replies, clicks on verify). *)
Theorem no_match_without_upload (p : Props) (token : Js.field) (es : list Event) :
  forallb (fun e => negb (uploads e)) es = true ->
  documentFile (st (fst (run es (initial p token)))) = None
  /\ verifyRequests (snd (run es (initial p token))) = [].
Proof.
  assert (G : forall es w, documentFile (st w) = None ->
                forallb (fun e => negb (uploads e)) es = true ->
                documentFile (st (fst (run es w))) = None
                /\ verifyRequests (snd (run es w)) = []).
  { clear. induction es as [|e es IH]; intros w Hw Hes; cbn [run].
    - split; [exact Hw | reflexivity].
    - cbn [forallb] in Hes. apply andb_true_iff in Hes. destruct Hes as [He Hes].
      apply negb_true_iff in He.
      destruct (step_without_document e w Hw He) as [S1 S2].
      destruct (step e w) as [w1 t1]. cbn [fst snd] in *.
      destruct (IH w1 S1 Hes) as [R1 R2].
      destruct (run es w1) as [w2 t2]. cbn [fst snd] in *.
      split; [exact R1 |]. unfold verifyRequests in *.
      rewrite requests_app, filter_app, S2, R2. reflexivity. }
  intros H. apply G; [reflexivity | exact H].
Qed.

Lemma no_match_without_upload_witness :
  let es :=
    Upload (Some Samples.pdf) Samples.extracted :: Samples.approach
    ++ rounds [LrJson true "" None] ++ [Verify Captured Samples.matched] in
  forallb (fun e => negb (uploads e)) es = true
  /\ verifyRequests (snd (run es Samples.mounted)) = [].
Proof.
  cbv zeta.
  match goal with
  | |- forallb ?f ?es = true /\ _ =>
      assert (H : forallb f es = true) by (vm_compute; reflexivity);
      split; [exact H |];
      exact (proj2 (no_match_without_upload Samples.parent (Some "token-of-asha") es H))
  end.
Defined.

(** *** The upload *)

(** X3: an accepted file is kept as the document and sent for extraction
    exactly once, with the stored token; the extraction mark and the leads
    are cleared again whatever the reply.  The parent's [prefillData], when
    given, is called exactly when the reply holds [success] and [kyc_data],
    with the mapped fields; the status line reports success then, a warning
    when the request itself failed, and otherwise still reads "Extracting". *)
Theorem accepted_upload_outcome (file : File) (reply : ExtractReply) (w : World) :
  accepted file = true ->
  let r := handleDocumentUpload (Some file) reply w in
  requests (traceOf r) = [PostExtract file (extractAuthorization (auth_token w))]
  /\ documentFile (st (worldOf r)) = Some file
  /\ selectedLeadIndex (st (worldOf r)) = 0
  /\ extractedLeads (st (worldOf r)) = []
  /\ extractingData (st (worldOf r)) = false
  /\ prefills (traceOf r)
     = (if prefillData (props w)
        then match extractedFields reply with
             | Some k => [Kyc.mapKycData k]
             | None => []
             end
        else [])
  /\ statusMsg (st (worldOf r))
     = match reply with
       | XrRejected _ => "⚠️ Could not extract data automatically."
       | XrJson true (Some _) => "✅ KYC data extracted successfully!"
       | _ => "🔄 Extracting KYC data from document..."
       end
  /\ snd r = Normal tt.
Proof.
  unfold accepted. intros H. apply andb_true_iff in H. destruct H as [Ht Hs].
  apply negb_true_iff in Hs. cbv zeta. unfold handleDocumentUpload.
  rewrite Ht, Hs. cbn [negb].
  open_world w. destruct p as [ov pf]. unfold extractedFields.
  destruct reply as [m | | [|] [k|]], pf; run_handler; cbn; repeat split; reflexivity.
Qed.

Lemma accepted_upload_outcome_witness :
  accepted Samples.aadhaar = true
  /\ documentFile
       (st (worldOf (handleDocumentUpload (Some Samples.aadhaar) Samples.extracted
                                          Samples.mounted)))
     = Some Samples.aadhaar.
Proof.
  assert (H : accepted Samples.aadhaar = true) by (vm_compute; reflexivity).
  split; [exact H |].
  destruct (accepted_upload_outcome Samples.aadhaar Samples.extracted Samples.mounted H)
    as (_ & D & _).
  exact D.
Defined.

(** *** The camera *)

(** X4: a camera start that succeeds withdraws a liveness confirmation: both
    flags are false afterwards, and a click on verify then sends nothing
    until liveness is confirmed anew. *)
Theorem restart_revokes_liveness (play : PlayResult) (w : World) :
  acquires w (StartCamera GumOk play) = true ->
  let w' := fst (step (StartCamera GumOk play) w) in
  cameraActive (st w') = true
  /\ liveDetected (st w') = false
  /\ livenessDone (st w') = false
  /\ forall cap reply, requests (snd (step (Verify cap reply) w')) = [].
Proof.
  intros H. cbv zeta.
  assert (A : cameraActive (st (fst (step (StartCamera GumOk play) w))) = true
              /\ liveDetected (st (fst (step (StartCamera GumOk play) w))) = false
              /\ livenessDone (st (fst (step (StartCamera GumOk play) w))) = false).
  { revert H. destruct w as [p s v l n c pe tok]. unfold acquires. cbn [videoRef].
    destruct v as [[[o|]]|], play; try discriminate; intros _.
    all: run_handler; repeat break_match; cbn; repeat split; reflexivity. }
  destruct A as (A1 & A2 & A3). repeat split; try assumption.
  intros cap reply.
  destruct (step (StartCamera GumOk play) w) as [w' t']. cbn [fst] in *.
  unfold step.
  destruct (handleVerify_waits cap reply w' A2) as [msg Hm].
  unfold dispatch, bind, world. cbn beta iota. rewrite Hm.
  destruct (commit (withState (setStatusMsg msg) w')) as [[w2 t2] c2] eqn:Ec.
  cbn [snd].
  assert (R : requests t2 = []).
  { revert Ec. destruct w' as [p s v l n c pe tok]. run_handler.
    repeat break_match; intros Ec; inversion Ec; subst; reflexivity. }
  rewrite requests_app, R. reflexivity.
Qed.

Lemma restart_revokes_liveness_witness :
  liveDetected (st Samples.confirmed) = true
  /\ acquires Samples.confirmed (StartCamera GumOk PlayOk) = true
  /\ liveDetected (st (fst (step (StartCamera GumOk PlayOk) Samples.confirmed))) = false.
Proof.
  assert (H : acquires Samples.confirmed (StartCamera GumOk PlayOk) = true)
    by (vm_compute; reflexivity).
  split; [vm_compute; reflexivity | split; [exact H |]].
  destruct (restart_revokes_liveness PlayOk Samples.confirmed H) as (_ & L & _).
  exact L.
Defined.

(** X5: when the stream is acquired and attached but [video.play()] rejects,
    the component only alerts: no state variable changes, so the camera is
    not marked active, while the new stream stays attached to the video
    element and live. *)
Theorem failed_playback_leaves_camera_on (message : string) (video : Video) (w : World) :
  videoRef w = Some video ->
  let r := handleStartCamera GumOk (PlayFail message) w in
  st (worldOf r) = st w
  /\ alerts (traceOf r) = ["Camera error: " ++ message]%string
  /\ videoRef (worldOf r) = Some (mkVideo (Some (nextStream w)))
  /\ In (nextStream w) (liveStreams (worldOf r)).
Proof.
  open_world w. cbn [videoRef]. intros ->. cbv zeta. destruct video as [[old|]]; cbn.
  all: repeat split; apply in_or_app; right; left; reflexivity.
Qed.

Lemma failed_playback_leaves_camera_on_witness :
  videoRef Samples.sampling = Some (mkVideo None)
  /\ In (nextStream Samples.sampling)
        (liveStreams (worldOf (handleStartCamera GumOk (PlayFail "NotAllowedError")
                                                 Samples.sampling))).
Proof.
  assert (H : videoRef Samples.sampling = Some (mkVideo None)) by (vm_compute; reflexivity).
  split; [exact H |].
  destruct (failed_playback_leaves_camera_on "NotAllowedError" (mkVideo None)
              Samples.sampling H) as (_ & _ & _ & L).
  exact L.
Defined.

(** *** Rendering between two events *)

(** What the render after an event leaves behind: the state of the handler,
    the effect closed over it, the video element there exactly while the
    camera is active, and a trace of setup and cleanup effects only. *)
Lemma commit_spec (w : World) :
  st (worldOf (commit w)) = st w
  /\ props (worldOf (commit w)) = props w
  /\ closure (worldOf (commit w)) = depsOf (st w)
  /\ videoMounted (worldOf (commit w)) = cameraActive (st w)
  /\ forallb housekeeping (traceOf (commit w)) = true.
Proof.
  open_world w. destruct v as [[[o|]]|], c1, c2, c3, ca, fd, ldone; cbn; repeat split.
Qed.

Lemma step_dispatch (e : Event) (w : World) :
  st (fst (step e w)) = st (worldOf (dispatch e w))
  /\ props (fst (step e w)) = props (worldOf (dispatch e w))
  /\ closure (fst (step e w)) = depsOf (st (fst (step e w)))
  /\ videoMounted (fst (step e w)) = cameraActive (st (fst (step e w)))
  /\ exists t, snd (step e w) = traceOf (dispatch e w) ++ t /\ forallb housekeeping t = true.
Proof.
  unfold step. destruct (dispatch e w) as [[w1 t1] c1]. cbn [worldOf traceOf fst snd].
  destruct (commit_spec w1) as (C1 & C2 & C3 & C4 & C5).
  destruct (commit w1) as [[w2 t2] c2]. cbn [worldOf traceOf fst snd] in *.
  rewrite C1. repeat split; try assumption. exists t2. split; [reflexivity | exact C5].
Qed.

Lemma housekeeping_callbacks (t : list Effect) :
  forallb housekeeping t = true -> callbacks t = [].
Proof.
  induction t as [|e t IH]; cbn [forallb callbacks flat_map]; [reflexivity |].
  intros H. apply andb_true_iff in H. destruct H as [He Ht].
  fold (callbacks t). rewrite (IH Ht). destruct e; try discriminate He; reflexivity.
Qed.

Lemma housekeeping_prefills (t : list Effect) :
  forallb housekeeping t = true -> prefills t = [].
Proof.
  induction t as [|e t IH]; cbn [forallb prefills flat_map]; [reflexivity |].
  intros H. apply andb_true_iff in H. destruct H as [He Ht].
  fold (prefills t). rewrite (IH Ht). destruct e; try discriminate He; reflexivity.
Qed.

(** *** The liveness flags *)

Lemma dispatch_liveness_flags (e : Event) (w : World) :
  liveDetected (st (worldOf (dispatch e w)))
  = (if confirms w e then true else if acquires w e then false else liveDetected (st w))
  /\ livenessDone (st (worldOf (dispatch e w)))
     = (if confirms w e then true else if acquires w e then false else livenessDone (st w)).
Proof.
  destruct w as [p s v l n c pe tok]. unfold confirms, acquires. cbn [pending videoRef].
  destruct e as [gum play | ctx k | cap | reply | input reply | cap reply].
  - destruct gum, v as [[[o|]]|], play; cbn beta iota.
    all: run_handler; repeat break_match; cbn; split; reflexivity.
  - run_handler; repeat break_match; cbn; split; reflexivity.
  - run_handler; repeat break_match; cbn; split; reflexivity.
  - destruct pe as [|pe]; destruct reply as [m | | [|] reason frames]; cbn [Nat.eqb negb].
    all: run_handler; repeat break_match; cbn; split; reflexivity.
  - run_handler; repeat break_match; cbn; split; reflexivity.
  - run_handler; repeat break_match; cbn; split; reflexivity.
Qed.

(** X6: the two liveness flags change together and only on two events: the
    reply [live: true] to a frame in flight sets both, a camera start that
    succeeds clears both; every other event (a face lost, a probe that
    fails, an upload, a verification and its outcome) leaves them as they are. *)
Theorem liveness_flags_frame (e : Event) (w : World) :
  liveDetected (st (fst (step e w)))
  = (if confirms w e then true else if acquires w e then false else liveDetected (st w))
  /\ livenessDone (st (fst (step e w)))
     = (if confirms w e then true else if acquires w e then false else livenessDone (st w)).
Proof.
  destruct (step_dispatch e w) as (S1 & _). rewrite S1.
  apply dispatch_liveness_flags.
Qed.

(** X7: with the interval running, a tick submits a frame exactly when a
    face is detected, liveness is not settled and the canvas yields a
    blob; the request is counted as pending and nothing else changes.
    Otherwise the tick does nothing at all. *)
Theorem sampling_condition (cap : Capture) (w : World) :
  subscribed w = true ->
  fst (step (Tick cap) w)
  = (if faceDetected (st w) && negb (livenessDone (st w)) && selfie w cap
     then withPending (S (pending w)) w else w)
  /\ snd (step (Tick cap) w)
     = (if faceDetected (st w) && negb (livenessDone (st w)) && selfie w cap
        then [Fetch (PostLiveness livenessUserId)] else []).
Proof.
  open_world w. intros H. use_situation H. unfold selfie.
  cbn [videoRef st faceDetected livenessDone].
  destruct fd, ldone, cap; split; reflexivity.
Qed.

Lemma sampling_condition_witness :
  subscribed Samples.sampling = true
  /\ snd (step (Tick Captured) Samples.sampling) = [Fetch (PostLiveness livenessUserId)]
  /\ snd (step (Tick NoBlob) Samples.sampling) = [].
Proof.
  assert (H : subscribed Samples.sampling = true) by (vm_compute; reflexivity).
  split; [exact H |].
  split.
  - exact (proj2 (sampling_condition Captured Samples.sampling H)).
  - exact (proj2 (sampling_condition NoBlob Samples.sampling H)).
Defined.

(** *** What every run keeps *)

Lemma dispatch_tidy (e : Event) (w : World) :
  tidy (st w) = true ->
  tidy (st (worldOf (dispatch e w))) = true
  /\ Forall (fun c => snd c = []) (callbacks (traceOf (dispatch e w))).
Proof.
  open_world w. unfold tidy.
  cbn [st liveDetected livenessDone extractedLeads loading extractingData].
  intros H.
  repeat (apply andb_true_iff in H; let H' := fresh "H" in destruct H as [H H']).
  apply eqb_prop in H. apply negb_true_iff in H0, H1.
  destruct el; [| discriminate]. subst ld lo ex.
  destruct e as [gum play | ctx k | cap | reply | input reply | cap reply].
  all: run_handler; repeat break_match; cbn; rewrite ?eqb_reflx; split;
    try reflexivity; repeat constructor.
  all: cbn in *; discriminate.
Qed.

(** X8: after every sequence of events from the mounted component, the two
    liveness flags are equal, no lead has been extracted (nothing ever sets
    [extractedLeads] to anything but the empty list), the detection effect
    is closed over the current state, the video element is in the document
    exactly while the camera is active, and every call of [onVerified] so
    far carried an empty list of leads. *)
Theorem run_keeps_state_tidy (p : Props) (token : Js.field) (es : list Event) :
  let w := fst (run es (initial p token)) in
  liveDetected (st w) = livenessDone (st w)
  /\ extractedLeads (st w) = []
  /\ closure w = depsOf (st w)
  /\ videoMounted w = cameraActive (st w)
  /\ Forall (fun c => snd c = []) (callbacks (snd (run es (initial p token)))).
Proof.
  cbv zeta.
  assert (G : forall es w,
             tidy (st w) = true -> closure w = depsOf (st w) ->
             videoMounted w = cameraActive (st w) ->
             tidy (st (fst (run es w))) = true
             /\ closure (fst (run es w)) = depsOf (st (fst (run es w)))
             /\ videoMounted (fst (run es w)) = cameraActive (st (fst (run es w)))
             /\ Forall (fun c => snd c = []) (callbacks (snd (run es w)))).
  { clear. induction es as [|e es IH]; intros w Ht Hc Hm; cbn [run].
    - repeat split; try assumption. constructor.
    - destruct (step_dispatch e w) as (S1 & _ & S2 & S3 & t & S4 & S5).
      destruct (dispatch_tidy e w Ht) as [D1 D2].
      destruct (step e w) as [w1 t1]. cbn [fst snd] in *.
      rewrite <- S1 in D1.
      destruct (IH w1 D1 S2 S3) as (R1 & R2 & R3 & R4).
      destruct (run es w1) as [w2 t2]. cbn [fst snd] in *.
      repeat split; try assumption.
      subst t1. unfold callbacks in *. rewrite !flat_map_app.
      fold (callbacks t). rewrite (housekeeping_callbacks t S5), app_nil_r.
      apply Forall_app. split; assumption. }
  destruct (G es (initial p token) eq_refl eq_refl eq_refl) as (T & C & M & F).
  unfold tidy in T.
  repeat (apply andb_true_iff in T; let H' := fresh "H" in destruct T as [T H']).
  apply eqb_prop in T.
  repeat split; try assumption.
  destruct (extractedLeads _); [reflexivity | discriminate].
Qed.

(** X9: no event turns the camera off: once [cameraActive] is true it stays
    true, the video element stays in the document and the start button
    stays hidden, whatever the event (a failed restart, a lost face, a
    failed probe, a finished verification). *)
Theorem camera_stays_active (e : Event) (w : World) :
  cameraActive (st w) = true ->
  cameraActive (st (fst (step e w))) = true
  /\ videoMounted (fst (step e w)) = true
  /\ startButtonShown (st (fst (step e w))) = false.
Proof.
  intros H. destruct (step_dispatch e w) as (S1 & _ & _ & S3 & _).
  assert (A : cameraActive (st (worldOf (dispatch e w))) = true).
  { revert H. open_world w. cbn [st cameraActive]. intros ->.
    destruct e as [gum play | ctx k | cap | reply | input reply | cap reply].
    all: run_handler; repeat break_match; reflexivity. }
  unfold startButtonShown. rewrite S3, S1, A. repeat split.
Qed.

Lemma camera_stays_active_witness :
  cameraActive (st Samples.sampling) = true
  /\ cameraActive
       (st (fst (step (StartCamera (GumFail "NotReadableError") PlayOk) Samples.sampling)))
     = true.
Proof.
  assert (H : cameraActive (st Samples.sampling) = true) by (vm_compute; reflexivity).
  split; [exact H |].
  exact (proj1 (camera_stays_active (StartCamera (GumFail "NotReadableError") PlayOk)
                  Samples.sampling H)).
Defined.

(** *** The prefill callback *)

Lemma dispatch_prefills (e : Event) (w : World) :
  props (worldOf (dispatch e w)) = props w
  /\ prefills (traceOf (dispatch e w)) = delivered (props w) e.
Proof.
  open_world w. destruct p as [ov pf]. unfold delivered, extractionOf, accepted, extractedFields.
  cbn [props prefillData].
  destruct e as [gum play | ctx k | cap | reply | input reply | cap reply].
  5: { destruct input as [f|].
       - run_handler.
         destruct (Js.startsWith (file_type f) "image/"); cbn [negb andb].
         + destruct (maxDocumentSize <? file_size f)%N; cbn [negb].
           * destruct pf; split; reflexivity.
           * destruct reply as [m | | [|] [k|]], pf; cbn; split; reflexivity.
         + destruct pf; split; reflexivity.
       - run_handler. destruct pf; split; reflexivity. }
  all: run_handler; repeat break_match; cbn; destruct pf; split; reflexivity.
Qed.

Lemma step_prefills (e : Event) (w : World) :
  props (fst (step e w)) = props w
  /\ prefills (snd (step e w)) = delivered (props w) e.
Proof.
  destruct (dispatch_prefills e w) as [D1 D2].
  destruct (step_dispatch e w) as (_ & S2 & _ & _ & t & S4 & S5).
  split; [congruence |].
  rewrite S4. unfold prefills in *. rewrite flat_map_app. fold (prefills t).
  rewrite (housekeeping_prefills t S5), app_nil_r. exact D2.
Qed.

(** X10: over any run, the parent's [prefillData] is called once for every
    accepted upload whose reply holds [success] and [kyc_data], in order and
    with the mapped fields of that reply, and for nothing else: no other
    event calls it, and a parent that gave no callback is never called. *)
Theorem prefill_callbacks_of_run (es : list Event) (w : World) :
  prefills (snd (run es w)) = flat_map (delivered (props w)) es.
Proof.
  revert w. induction es as [|e es IH]; intros w; cbn [run flat_map]; [reflexivity |].
  destruct (step_prefills e w) as [S1 S2].
  destruct (step e w) as [w1 t1]. cbn [fst snd] in *.
  specialize (IH w1). destruct (run es w1) as [w2 t2]. cbn [fst snd] in *.
  unfold prefills in *. rewrite flat_map_app, S2, IH, S1. reflexivity.
Qed.

End FaceVerificationOutcomes.

(** ** The mapping of an extraction result *)

Module KycMappingProperties.

Import Kyc.
Import Observing.

Lemma or_null_filled (a : Js.field) : nullOrFilled (Js.or a None) = true.
Proof. destruct a as [[|c t]|]; reflexivity. Qed.

Lemma truthy_or (a b : Js.field) : Js.truthy (Js.or a b) = Js.truthy a || Js.truthy b.
Proof. destruct a as [[|c t]|]; reflexivity. Qed.

Lemma truthy_or_null (a : Js.field) : Js.truthy (Js.or a None) = Js.truthy a.
Proof. destruct a as [[|c t]|]; reflexivity. Qed.

Lemma orStr_filled (f : Js.field) (d : string) :
  nullOrFilled f = true ->
  Js.orStr f d = match f with Some v => v | None => d end.
Proof. destruct f as [[|c t]|]; cbn; intros H; try discriminate H; reflexivity. Qed.

(** X11: every field the component hands to the parent is [null] or a string
    that is not empty, never an empty string; each of the six fields is
    present exactly when one of the properties it is read from is not empty;
    and the name is always a list.  So in the form, a mapped date of birth,
    when present, is the value of the input, and the previous value stays
    otherwise. *)
Theorem mapped_fields_null_or_filled (k : KycData) (prev : KYCForm.FormDataState) :
  let p := mapKycData k in
  forallb nullOrFilled
    [gender p; dateOfBirth p; mobileNumber p; aadhaarNumber p; address p; panNumber p] = true
  /\ name p = Some (normalizeName (kd_name k))
  /\ Js.truthy (gender p) = Js.truthy (kd_gender k)
  /\ Js.truthy (address p) = Js.truthy (kd_address k)
  /\ Js.truthy (dateOfBirth p) = Js.truthy (kd_date_of_birth k) || Js.truthy (kd_dob k)
  /\ Js.truthy (mobileNumber p)
     = Js.truthy (kd_mobile_number k) || Js.truthy (kd_phone k) || Js.truthy (kd_mobile k)
  /\ Js.truthy (aadhaarNumber p)
     = Js.truthy (kd_aadhaar_number k) || Js.truthy (kd_aadhaar k) || Js.truthy (kd_uid k)
  /\ Js.truthy (panNumber p) = Js.truthy (kd_pan_number k) || Js.truthy (kd_pan k)
  /\ KYCForm.dateOfBirth (KYCForm.personalInfo (KYCForm.mergePrefill p prev))
     = match dateOfBirth p with
       | Some v => v
       | None => KYCForm.dateOfBirth (KYCForm.personalInfo prev)
       end.
Proof.
  cbv zeta. unfold mapKycData.
  cbn [gender dateOfBirth mobileNumber aadhaarNumber address panNumber name forallb].
  assert (G : nullOrFilled (normalizeGender (kd_gender k)) = true).
  { unfold normalizeGender. destruct (kd_gender k) as [[|c t]|]; try reflexivity.
    cbn [Js.truthy].
    destruct (Js.includes _ "male"); [reflexivity |].
    destruct (Js.includes _ "female"); reflexivity. }
  assert (T : Js.truthy (normalizeGender (kd_gender k)) = Js.truthy (kd_gender k)).
  { unfold normalizeGender. destruct (kd_gender k) as [[|c t]|]; try reflexivity.
    cbn [Js.truthy].
    destruct (Js.includes _ "male"); [reflexivity |].
    destruct (Js.includes _ "female"); reflexivity. }
  rewrite G, T, !or_null_filled, !truthy_or_null, !truthy_or.
  split; [reflexivity |]. repeat (split; [reflexivity |]).
  cbn [KYCForm.mergePrefill KYCForm.personalInfo KYCForm.dateOfBirth dateOfBirth].
  apply orStr_filled, or_null_filled.
Qed.

End KycMappingProperties.

(** ** kycApi *)

Module KycApiProperties.

Import KycApi.

(** X12: each of the four calls sends exactly one request, with the headers
    of [getAuthHeaders], and never throws: it answers [success] exactly when
    the response is ok and its body readable, with the data of the body for
    the two listings.  For each of the four, a response that is not ok gives
    the [detail] of its body as the error, or the fallback text of that call
    when there is none.
    The status update sends the status always and the reason only when it
    is not empty.  Without a stored token the requests still go out, with an
    empty [Authorization] header. *)
Theorem api_calls_answer (token : Js.field) :
  (forall form reply,
     let r := submitKYCApplication token form reply in
     success (fst r) = isOk reply
     /\ fetches (snd r) = [PostSubmit (getAuthHeaders token) form])
  /\ (forall form kycId status reason detail,
        error (fst (submitKYCApplication token form (NotOk detail)))
        = Some (Js.orStr detail "Failed to submit KYC")
        /\ error (fst (getAllKYCApplications token (NotOk detail)))
           = Some (Js.orStr detail "Failed to fetch KYC applications")
        /\ error (fst (getMyKYCApplications token (NotOk detail)))
           = Some (Js.orStr detail "Failed to fetch your KYC applications")
        /\ error (fst (updateKYCStatus token kycId status reason (NotOk detail)))
           = Some (Js.orStr detail "Failed to update KYC status"))
  /\ (forall reply,
        let r := getMyKYCApplications token reply in
        success (fst r) = isOk reply
        /\ fetches (snd r) = [GetMyApplications (getAuthHeaders token)]
        /\ data (fst r) = match reply with Ok apps => Some apps | _ => None end)
  /\ (forall reply,
        let r := getAllKYCApplications token reply in
        success (fst r) = isOk reply
        /\ fetches (snd r) = [GetAll (getAuthHeaders token)]
        /\ data (fst r) = match reply with Ok apps => Some apps | _ => None end)
  /\ (forall kycId status reason reply,
        let r := updateKYCStatus token kycId status reason reply in
        success (fst r) = isOk reply
        /\ fetches (snd r)
           = [PutStatus (getAuthHeaders token) kycId
                (("status", statusText status)
                 :: if Js.truthy reason then [("reason", Js.orStr reason "")] else [])])
  /\ authorization (getAuthHeaders token)
     = (if Js.truthy token then "Bearer " ++ Js.orStr token "" else "")%string.
Proof.
  split; [| split; [| split; [| split; [| split]]]].
  - intros form reply. destruct reply as [m | detail | m | d]; cbn; split; reflexivity.
  - intros form kycId status reason detail. repeat split.
  - intros reply. destruct reply as [m | detail | m | d]; cbn; repeat split.
  - intros reply. destruct reply as [m | detail | m | d]; cbn; repeat split.
  - intros kycId status reason reply.
    destruct reply as [m | detail | m | d], reason as [[|c t]|]; cbn; repeat split.
  - destruct token as [[|c t]|]; reflexivity.
Qed.

End KycApiProperties.

(** ** VerificationStatus *)

Module VerificationStatusProperties.

Import VerificationStatus.

(** X13: loading the status always ends the loading and sends one request
    for the user's applications.  The card shows the first application of an
    ok reply; a failed request, an unreadable reply and an empty list all
    end in the same "No Verification Data" screen, without an error.  The
    error banner is shown in one case only: the parent's [onStatusUpdate]
    callback threw.  A refresh shows the same and ends with [refreshing]
    false. *)
Theorem status_load_outcome (onStatusUpdate : Callback) (token : Js.field)
  (reply : KycApi.Reply (list KycApi.KYCApplication)) (s : State) :
  let r := loadKYCStatus onStatusUpdate token reply s in
  let shown :=
    match reply with
    | KycApi.Ok (latestApp :: _) => Some (transformKYCToStatus latestApp)
    | _ => None
    end in
  loading (fst r) = false
  /\ kycStatus (fst r) = shown
  /\ error (fst r)
     = match onStatusUpdate with
       | Throws _ => Some "Failed to load verification status"
       | _ => None
       end
  /\ render (fst r)
     = match onStatusUpdate, shown with
       | Throws _, _ => ErrorBanner "Failed to load verification status"
       | _, Some k => Card k
       | _, None => NoVerificationData
       end
  /\ calls (snd r) = [KycApi.GetMyApplications (KycApi.getAuthHeaders token)]
  /\ refreshing (fst (refreshStatus onStatusUpdate token reply s)) = false
  /\ render (fst (refreshStatus onStatusUpdate token reply s)) = render (fst r).
Proof.
  destruct onStatusUpdate, reply as [m | detail | m | [|app apps]]; cbn; repeat split.
Qed.

(** X14: for an application in one of the four states of [KYCApplication],
    the card shows the badge of that state; the three documents are marked
    verified exactly for an approved application; the progress bar is shown
    only under review, where it reads step 2 of 4 with the estimated
    completion time, so the steps 1 and 4 are never displayed; and the
    rejection reason is shown exactly for a rejected application that has
    one. *)
Theorem status_card_of_application (app : KycApi.KYCApplication) :
  In (KycApi.status app) ["pending"; "under_review"; "approved"; "rejected"] ->
  let k := transformKYCToStatus app in
  (badge k, currentStep (progress k), progressShown k, verified (identity (documents k)))
  = (if String.eqb (KycApi.status app) "pending" then ("Pending", 1, false, false)
     else if String.eqb (KycApi.status app) "under_review" then ("Under Review", 2, true, false)
     else if String.eqb (KycApi.status app) "approved" then ("Approved", 4, false, true)
     else ("Rejected", 4, false, false))
  /\ totalSteps (progress k) = 4
  /\ verified (address (documents k)) = verified (identity (documents k))
  /\ verified (income (documents k)) = verified (identity (documents k))
  /\ estimatedCompletionTime k
     = (if progressShown k then Some "2-3 business days" else None)
  /\ rejectionShown k
     = (String.eqb (KycApi.status app) "rejected" && Js.truthy (KycApi.rejectionReason app)).
Proof.
  intros H. cbv zeta.
  unfold transformKYCToStatus, progressShown, rejectionShown, badge, stepOf.
  cbn [documents identity address income verified uploaded progress totalSteps
       currentStep estimatedCompletionTime status rejectionReason].
  cbn [In] in H.
  destruct H as [H | [H | [H | [H | []]]]]; rewrite <- H; cbn; repeat split.
Qed.

Lemma status_card_of_application_witness :
  let app :=
    KycApi.mkKYCApplication "7" "u1" "under_review"
      (KYCForm.personalInfo Samples.blank) (KYCForm.identification Samples.blank)
      (KYCForm.financialInfo Samples.blank) "2025-01-01" None None None in
  let k := transformKYCToStatus app in
  In (KycApi.status app) ["pending"; "under_review"; "approved"; "rejected"]
  /\ (badge k, currentStep (progress k), progressShown k, verified (identity (documents k)))
     = ("Under Review", 2, true, false).
Proof.
  cbv zeta.
  match goal with
  | |- In (KycApi.status ?a) ?l /\ _ =>
      assert (H : In (KycApi.status a) l) by (right; left; reflexivity);
      split; [exact H | exact (proj1 (status_card_of_application a H))]
  end.
Defined.

End VerificationStatusProperties.

(** ** KYCForm: the inputs, the navigation and the submission *)

Module KYCFormComponentProperties.

Import KYCFormComponent.

(** X15: typing into an input writes exactly the property that input shows:
    afterwards the input holds the typed value and every other input, and
    the document type, hold what they held; choosing a document type changes
    no input. *)
Theorem input_round_trip (i j : Input) (v : string) (t : KYCForm.DocumentType)
  (f : KYCForm.FormDataState) :
  value j (onChange i v f) = (if Input_eqb i j then v else value j f)
  /\ KYCForm.documentType (KYCForm.identification (onChange i v f))
     = KYCForm.documentType (KYCForm.identification f)
  /\ KYCForm.documentType (KYCForm.identification (handleDocumentType t f)) = t
  /\ value j (handleDocumentType t f) = value j f.
Proof.
  destruct i, j; repeat split.
Qed.

Lemma orStr_absorbs (a : Js.field) (d : string) :
  Js.orStr a (Js.orStr a d) = Js.orStr a d.
Proof. destruct a as [[|c t]|]; reflexivity. Qed.

Lemma orStr_or (a b : Js.field) :
  Js.orStr a (Js.orStr (Js.or a b) "") = Js.orStr (Js.or a b) "".
Proof. destruct a as [[|c t]|]; reflexivity. Qed.

(** X16: the prefill effect that runs after the first render changes
    nothing, since the initial record is built from the same prefill data;
    and running the effect twice with the same data is the same as running
    it once. *)
Theorem prefill_settles (prefillData : option Kyc.PrefillData) (user : option KYCForm.User)
  (f : KYCForm.FormDataState) :
  formData (mount prefillData user) = KYCForm.initialFormData prefillData user
  /\ KYCForm.prefillEffect prefillData (KYCForm.prefillEffect prefillData f)
     = KYCForm.prefillEffect prefillData f.
Proof.
  unfold mount. cbn [formData].
  destruct prefillData as [p|]; [| split; reflexivity].
  unfold KYCForm.prefillEffect, KYCForm.mergePrefill, KYCForm.initialFormData. cbn.
  rewrite !orStr_or, !orStr_absorbs. split; reflexivity.
Qed.

(** X17: a submission sends the record as it is, once, and ends the loading.
    The form is marked submitted exactly for an ok reply; then the success
    notice is shown and [onComplete], when given, is scheduled after two
    seconds.  Otherwise one error notice is shown, with the [detail] of the
    reply or the text of the failure, and the record and the step are kept
    so that the user can submit again. *)
Theorem submit_outcome (onComplete : bool) (token : Js.field) (reply : KycApi.Reply N)
  (s : State) :
  let r := handleSubmit onComplete token reply s in
  submitted (fst r) = (submitted s || KycApi.isOk reply)
  /\ loading (fst r) = false
  /\ formData (fst r) = formData s
  /\ currentStep (fst r) = currentStep s
  /\ posts (snd r) = [KycApi.PostSubmit (KycApi.getAuthHeaders token) (formData s)]
  /\ notices (snd r)
     = [match reply with
        | KycApi.Ok _ => NotifySuccess "KYC application submitted successfully!"
        | KycApi.NotOk detail => NotifyError (Js.orStr detail "Failed to submit KYC")
        | KycApi.Rejected m | KycApi.Unreadable m =>
            NotifyError (Js.orStr (Some m) "Failed to submit application")
        end]
  /\ completions (snd r) = (if onComplete && KycApi.isOk reply then 1 else 0).
Proof.
  destruct reply as [m | detail | m | d], onComplete; cbn;
    rewrite ?orb_false_r, ?orb_true_r; repeat split.
  all: destruct detail as [[|c t]|]; reflexivity.
Qed.

Lemma act_spec (onComplete : bool) (token : Js.field) (a : Action) (s : State) :
  1 <= currentStep s <= 3 -> loading s = false ->
  let r := act onComplete token a s in
  1 <= currentStep (fst r) <= 3
  /\ loading (fst r) = false
  /\ successes (snd r) = (if submitted s then 0 else if submitted (fst r) then 1 else 0)
  /\ completions (snd r) = (if onComplete then successes (snd r) else 0)
  /\ (submitted s = true -> fst r = s /\ snd r = []).
Proof.
  intros Hs Hl. cbv zeta. unfold act.
  destruct (submitted s) eqn:Sub.
  - cbn. destruct onComplete; repeat split; try lia; try reflexivity; assumption.
  - destruct a as [i v | t | | | reply].
    + destruct (currentStep s =? panel i)%nat, onComplete; cbn; rewrite ?Sub; cbn;
        repeat split; try lia; try assumption; discriminate.
    + destruct (currentStep s =? 2)%nat, onComplete; cbn; rewrite ?Sub; cbn;
        repeat split; try lia; try assumption; discriminate.
    + destruct (1 <? currentStep s)%nat eqn:E; destruct onComplete; cbn; rewrite ?Sub; cbn;
        repeat split; try lia; try assumption; try discriminate.
      all: apply Nat.ltb_lt in E; lia.
    + destruct (currentStep s <? 3)%nat eqn:E; destruct onComplete; cbn; rewrite ?Sub; cbn;
        repeat split; try lia; try assumption; try discriminate.
      all: apply Nat.ltb_lt in E; lia.
    + destruct (currentStep s <? 3)%nat eqn:E.
      * destruct onComplete; cbn; rewrite ?Sub; cbn;
        repeat split; try lia; try assumption; discriminate.
      * destruct reply as [m | detail | m | d], onComplete; cbn; rewrite ?Sub; cbn;
          repeat split; try lia; try assumption; discriminate.
Qed.

Lemma successes_app (a b : list Effect) : successes (a ++ b) = successes a + successes b.
Proof. unfold successes. rewrite filter_app, length_app. reflexivity. Qed.

Lemma completions_app (a b : list Effect) :
  completions (a ++ b) = completions a + completions b.
Proof. unfold completions. rewrite filter_app, length_app. reflexivity. Qed.

Lemma acts_submitted (onComplete : bool) (token : Js.field) (l : list Action) (s : State) :
  submitted s = true -> acts onComplete token l s = (s, []).
Proof.
  intros H. induction l as [|a l IH]; cbn [acts]; [reflexivity |].
  unfold act. rewrite H, IH. reflexivity.
Qed.

Lemma acts_spec (onComplete : bool) (token : Js.field) (l : list Action) (s : State) :
  1 <= currentStep s <= 3 -> loading s = false ->
  let r := acts onComplete token l s in
  1 <= currentStep (fst r) <= 3
  /\ loading (fst r) = false
  /\ successes (snd r) = (if submitted s then 0 else if submitted (fst r) then 1 else 0)
  /\ completions (snd r) = (if onComplete then successes (snd r) else 0).
Proof.
  cbv zeta. revert s. induction l as [|a l IH]; intros s Hs Hl; cbn [acts].
  - cbn. destruct (submitted s), onComplete; repeat split; try lia; assumption.
  - destruct (act_spec onComplete token a s Hs Hl) as (A1 & A2 & A3 & A4 & A6).
    destruct (act onComplete token a s) as [s1 t1]. cbn [fst snd] in *.
    destruct (IH s1 A1 A2) as (B1 & B2 & B3 & B4).
    destruct (submitted s1) eqn:S1.
    + rewrite (acts_submitted onComplete token l s1 S1) in *. cbn [fst snd] in *.
      rewrite app_nil_r, S1 in *. repeat split; try assumption; lia.
    + destruct (acts onComplete token l s1) as [s2 t2]. cbn [fst snd] in *.
      rewrite successes_app, completions_app.
      destruct (submitted s) eqn:S0.
      * destruct (A6 eq_refl) as [E _]. subst s1. congruence.
      * rewrite A4, B4, A3, B3. repeat split; try assumption; try lia.
        destruct onComplete; reflexivity.
Qed.

(** X18: whatever the user does with the mounted form, the step stays
    between 1 and 3; at most one submission succeeds, and the form is
    marked submitted exactly when one did; [onComplete], when given, is
    scheduled once for it and never otherwise; and once submitted, no
    further action changes anything or sends anything. *)
Theorem form_session (onComplete : bool) (token : Js.field)
  (prefillData : option Kyc.PrefillData) (user : option KYCForm.User) (l l' : list Action) :
  let r := acts onComplete token l (mount prefillData user) in
  1 <= currentStep (fst r) <= 3
  /\ successes (snd r) = (if submitted (fst r) then 1 else 0)
  /\ completions (snd r) = (if onComplete then successes (snd r) else 0)
  /\ (if submitted (fst r)
      then acts onComplete token l' (fst r) = (fst r, [])
      else True).
Proof.
  cbv zeta.
  assert (Hs : 1 <= currentStep (mount prefillData user) <= 3) by (cbn; lia).
  destruct (acts_spec onComplete token l (mount prefillData user) Hs eq_refl)
    as (A1 & _ & A3 & A4).
  cbn [mount submitted] in A3.
  repeat split; try assumption; try lia.
  destruct (submitted (fst (acts onComplete token l (mount prefillData user)))) eqn:S;
    [apply acts_submitted; exact S | exact I].
Qed.

End KYCFormComponentProperties.

(** ** ManualKYC: from the extraction to the form *)

Module ManualKYCFlowProperties.

Import FaceVerification.
Import Observing.
Import ManualKYCFlow.

Lemma deliverAll_base (t : list Effect) (s : State) :
  base (deliverAll t s)
  = fold_left (fun b d => ManualKYC.handlePrefillData d b) (prefills t) (base s).
Proof.
  unfold deliverAll. revert s. induction t as [|e t IH]; intros s; [reflexivity |].
  cbn [fold_left prefills flat_map]. fold (prefills t). rewrite IH.
  destruct e; cbn [deliver app fold_left]; try reflexivity.
  unfold handleFaceVerificationComplete. destruct success; reflexivity.
Qed.

Lemma handlePrefillData_mapped (k : Kyc.KycData) (b : ManualKYC.State) :
  ManualKYC.handlePrefillData (Kyc.mapKycData k) b
  = ManualKYC.mkState (if identifies k then ManualKYC.form else ManualKYC.currentStep b)
                      (Kyc.mapKycData k).
Proof.
  unfold ManualKYC.handlePrefillData, identifies, Kyc.mapKycData.
  cbn [Kyc.name Kyc.aadhaarNumber Kyc.dateOfBirth].
  rewrite !KycMappingProperties.truthy_or_null.
  destruct (_ || _ || _); reflexivity.
Qed.

(** X19: with the callbacks [ManualKYC] gives to the component, one event of
    the component moves the parent exactly when it is an accepted upload
    whose extraction holds a name, an Aadhaar number or a date of birth: the
    parent then shows the form.  Every extraction replaces the stored
    prefill data by its mapped fields; no other event, and in particular no
    outcome of the face match, changes the step or the prefill data. *)
Theorem manual_flow_follows_extraction (e : Event) (w : World) (s : State) :
  props w = mkProps true true ->
  let s' := deliverAll (snd (step e w)) s in
  currentStep s'
  = match extractionOf e with
    | Some k => if identifies k then ManualKYC.form else currentStep s
    | None => currentStep s
    end
  /\ ManualKYC.formPrefillData (base s')
     = match extractionOf e with
       | Some k => Kyc.mapKycData k
       | None => ManualKYC.formPrefillData (base s)
       end.
Proof.
  intros Hp. cbv zeta. unfold currentStep. rewrite deliverAll_base.
  destruct (FaceVerificationOutcomes.step_prefills e w) as [_ S2].
  rewrite S2, Hp. unfold delivered.
  cbn [prefillData].
  destruct (extractionOf e) as [k|]; cbn [fold_left]; [| split; reflexivity].
  rewrite handlePrefillData_mapped. split; reflexivity.
Qed.

Lemma manual_flow_follows_extraction_witness :
  props Samples.mounted = mkProps true true
  /\ currentStep (deliverAll (snd (step (Upload (Some Samples.aadhaar) Samples.extracted)
                                        Samples.mounted))
                             initialState)
     = ManualKYC.form.
Proof.
  split; [reflexivity |].
  exact (proj1 (manual_flow_follows_extraction
                  (Upload (Some Samples.aadhaar) Samples.extracted)
                  Samples.mounted initialState eq_refl)).
Defined.

End ManualKYCFlowProperties.

(** ** KYCAgent: the conversation *)

Module KYCAgentFlowProperties.

Import KYCAgent.
Import KYCAgentFlow.

(** X20: an accepted file is announced in the conversation, kept as the
    uploaded document and sent for extraction once, with [use_api] set and
    the stored token; the processing mark is cleared whatever the reply.  A
    reply with [success] stores its [kyc_data], even when it holds none, and
    opens the face verification, unless the name it holds is a string that
    is not empty: building the card then throws, and the agent returns to
    the upload step with the data already stored.  Every other reply leaves
    the stored data alone and returns to the upload step.  Wherever the
    agent returns to the upload step, the face verification stays as it was
    and the conversation ends with a new upload widget. *)
Theorem agent_upload_outcome (token : Js.field) (file : FaceVerification.File)
  (reply : FaceVerification.ExtractReply) (s : State) :
  Observing.accepted file = true ->
  let r := handleDocumentUpload token file reply s in
  let opened :=
    currentStep (fst r) = face_verification /\ showFaceVerification (fst r) = true in
  let returned :=
    currentStep (fst r) = document_upload
    /\ showFaceVerification (fst r) = showFaceVerification s
    /\ exists before,
         conversation (fst r) = before ++ [mkChatMessage agent DocumentUpload] in
  isProcessing (fst r) = false
  /\ uploadedDocument (fst r) = Some file
  /\ fetched (snd r) = [(file, "true", FaceVerification.verifyAuthorization token)]
  /\ (exists rest,
        conversation (fst r)
        = conversation s
          ++ mkChatMessage user (UploadedFile (FaceVerification.file_name file)) :: rest)
  /\ match reply with
     | FaceVerification.XrJson true kyc_data =>
         extractedData (fst r) = kyc_data
         /\ formPrefillData (fst r) = kyc_data
         /\ if cardThrows kyc_data then returned else opened
     | _ =>
         extractedData (fst r) = extractedData s
         /\ formPrefillData (fst r) = formPrefillData s
         /\ returned
     end.
Proof.
  unfold Observing.accepted. intros H. apply andb_true_iff in H. destruct H as [Ht Hs].
  apply negb_true_iff in Hs. cbv zeta. unfold handleDocumentUpload.
  rewrite Ht, Hs. cbn [negb].
  destruct reply as [m | | [|] kd]; unfold processed, caught;
    try destruct (cardThrows kd) eqn:E; try destruct kd as [k|];
    cbn; rewrite <- ?app_assoc; cbn.
  all: split; [reflexivity |]; split; [reflexivity |]; split; [reflexivity |].
  all: split; [eexists; reflexivity |].
  all: repeat (split; [reflexivity |]); try reflexivity.
  all: first [ eexists (conversation s ++ [_; _; _]); rewrite <- app_assoc; reflexivity
             | eexists (conversation s ++ [_; _]); rewrite <- app_assoc; reflexivity ].
Qed.

(** Two uploads of the same file: the first reply holds the name as a list
    and opens the face verification, the second holds it as one string and
    brings the agent back to the upload step. *)
Lemma agent_upload_outcome_witness :
  let listed := FaceVerification.XrJson true (Some (Samples.kyc (Kyc.NameArray ["Ravi"]) None)) in
  let single := FaceVerification.XrJson true (Some (Samples.kyc (Kyc.NameString "Ravi") None)) in
  Observing.accepted Samples.aadhaar = true
  /\ currentStep (fst (handleDocumentUpload None Samples.aadhaar listed initialState))
     = face_verification
  /\ currentStep (fst (handleDocumentUpload None Samples.aadhaar single initialState))
     = document_upload
  /\ extractedData (fst (handleDocumentUpload None Samples.aadhaar single initialState))
     = Some (Samples.kyc (Kyc.NameString "Ravi") None).
Proof.
  cbv zeta.
  assert (H : Observing.accepted Samples.aadhaar = true) by (vm_compute; reflexivity).
  split; [exact H |].
  destruct (agent_upload_outcome None Samples.aadhaar
              (FaceVerification.XrJson true (Some (Samples.kyc (Kyc.NameArray ["Ravi"]) None)))
              initialState H) as (_ & _ & _ & _ & _ & _ & A & _).
  destruct (agent_upload_outcome None Samples.aadhaar
              (FaceVerification.XrJson true (Some (Samples.kyc (Kyc.NameString "Ravi") None)))
              initialState H) as (_ & _ & _ & _ & B & _ & C & _).
  split; [exact A |]. split; [exact C | exact B].
Defined.

Lemma removeNth_length {A} (n : nat) (l : list A) (x : A) :
  nth_error l n = Some x -> S (List.length (removeNth n l)) = List.length l.
Proof.
  revert n. induction l as [|y l IH]; intros [|n] H; cbn in *; try discriminate.
  - reflexivity.
  - rewrite (IH n H). reflexivity.
Qed.

Lemma handleDocumentUpload_step (token : Js.field) (file : FaceVerification.File)
  (reply : FaceVerification.ExtractReply) (s : State) :
  isComplete (fst (handleDocumentUpload token file reply s)) = true ->
  isComplete s = true.
Proof.
  unfold handleDocumentUpload, isComplete.
  destruct (negb _); [cbn; trivial |].
  destruct (_ <? _)%N; [cbn; trivial |].
  unfold processed, caught.
  destruct reply as [m | | [|] kd]; try destruct (cardThrows kd); cbn; discriminate.
Qed.

Lemma handleDocumentUpload_grows (token : Js.field) (file : FaceVerification.File)
  (reply : FaceVerification.ExtractReply) (s : State) :
  exists suffix,
    conversation (fst (handleDocumentUpload token file reply s)) = conversation s ++ suffix.
Proof.
  unfold handleDocumentUpload.
  destruct (negb _); [cbn; eexists; reflexivity |].
  destruct (_ <? _)%N; [cbn; eexists; reflexivity |].
  unfold processed, caught.
  destruct reply as [m | | [|] kd]; try destruct (cardThrows kd); try destruct kd as [k|];
    cbn; rewrite <- ?app_assoc; eexists; reflexivity.
Qed.

Lemma agent_step_spec (onComplete : bool) (token : Js.field) (e : Event) (a : Agent) :
  let r := step onComplete token e a in
  completions (snd r) + List.length (timers (fst r)) <= List.length (timers a) + isSuccess e
  /\ (isComplete (state (fst r)) = true ->
      isComplete (state a) = true \/ 0 < List.length (timers a))
  /\ (onComplete = false -> completions (snd r) = 0)
  /\ exists suffix, conversation (state (fst r)) = conversation (state a) ++ suffix.
Proof.
  cbv zeta. destruct a as [s ts].
  destruct e as [ | file reply | [|] | | n]; cbn [step state timers].
  - cbn. rewrite <- !app_assoc. split; [lia | split; [discriminate | split; [reflexivity |]]].
    eexists; reflexivity.
  - pose proof (handleDocumentUpload_step token file reply s) as C.
    pose proof (handleDocumentUpload_grows token file reply s) as G.
    destruct (handleDocumentUpload token file reply s) as [s1 t1].
    cbn [fst snd state timers] in *.
    assert (K : completions (map Upload t1) = 0).
    { unfold completions. induction t1 as [|x t1 IH]; [reflexivity | exact IH]. }
    rewrite K. split; [cbn; lia | split; [| split; [reflexivity | exact G]]].
    intros H. left. exact (C H).
  - cbn. rewrite length_app. cbn. rewrite <- !app_assoc.
    split; [lia | split; [discriminate | split; [reflexivity |]]].
    eexists; reflexivity.
  - cbn. rewrite <- !app_assoc, app_nil_r.
    split; [lia | split; [tauto | split; [reflexivity |]]].
    eexists; reflexivity.
  - cbn. split; [lia | split; [tauto | split; [reflexivity |]]].
    exists []. rewrite app_nil_r. reflexivity.
  - destruct (nth_error ts n) as [c|] eqn:E.
    + pose proof (removeNth_length n ts c E) as L.
      destruct c, onComplete; cbn; rewrite ?length_app, ?app_nil_r; cbn;
        (split; [lia | split; [| split; [try reflexivity; try discriminate |]]]).
      all: try (intros _; right; lia).
      all: try tauto.
      all: first [exists []; rewrite app_nil_r; reflexivity | eexists; reflexivity].
    + cbn. split; [lia | split; [tauto | split; [reflexivity |]]].
      exists []. rewrite app_nil_r. reflexivity.
Qed.

Lemma agent_completions_app (a b : list Effect) :
  completions (a ++ b) = completions a + completions b.
Proof. unfold completions. rewrite filter_app, length_app. reflexivity. Qed.

Lemma agent_run_spec (onComplete : bool) (token : Js.field) (es : list Event) (a : Agent) :
  let r := run onComplete token es a in
  completions (snd r) + List.length (timers (fst r)) <= List.length (timers a) + successes es
  /\ (isComplete (state (fst r)) = true ->
      isComplete (state a) = true \/ 0 < List.length (timers a) + successes es)
  /\ (onComplete = false -> completions (snd r) = 0)
  /\ exists suffix, conversation (state (fst r)) = conversation (state a) ++ suffix.
Proof.
  cbv zeta. revert a. induction es as [|e es IH]; intros a; cbn [run].
  - cbn. split; [lia | split; [tauto | split; [reflexivity |]]].
    exists []. rewrite app_nil_r. reflexivity.
  - destruct (agent_step_spec onComplete token e a) as (A1 & A2 & A3 & [x A4]).
    destruct (step onComplete token e a) as [a1 t1]. cbn [fst snd] in *.
    destruct (IH a1) as (B1 & B2 & B3 & [y B4]).
    destruct (run onComplete token es a1) as [a2 t2]. cbn [fst snd] in *.
    rewrite agent_completions_app.
    assert (S : successes (e :: es) = isSuccess e + successes es) by reflexivity.
    rewrite S. split; [lia | split; [| split]].
    + intros H. destruct (B2 H) as [C | C];
        [destruct (A2 C) as [D | D]; [left; exact D | right; lia] | right; lia].
    + intros H. rewrite (A3 H), (B3 H). reflexivity.
    + exists (x ++ y). rewrite B4, A4, app_assoc. reflexivity.
Qed.

(** X21: over any run of the agent, in whatever order its timers fire,
    [onComplete] is called at most once for each successful face
    verification, and never when the parent gave none; the completion
    screen is reached only after a successful face verification; and the
    conversation only grows: what was said stays, starting with the
    greeting. *)
Theorem agent_completion (onComplete : bool) (token : Js.field) (es : list Event) :
  let r := run onComplete token es initial in
  completions (snd r) + List.length (timers (fst r)) <= successes es
  /\ completions (snd r) <= (if onComplete then successes es else 0)
  /\ (if isComplete (state (fst r)) then 0 < successes es else True)
  /\ exists suffix, conversation (state (fst r)) = conversation initialState ++ suffix.
Proof.
  cbv zeta. destruct (agent_run_spec onComplete token es initial) as (A1 & A2 & A3 & A4).
  cbn [initial timers state List.length] in *.
  split; [lia | split; [| split; [| exact A4]]].
  - destruct onComplete; [lia | rewrite (A3 eq_refl); lia].
  - destruct (isComplete _); [| exact I].
    destruct (A2 eq_refl) as [C | C]; [discriminate C | lia].
Qed.

End KYCAgentFlowProperties.

(** ** SmartKYCFlow *)

Module SmartKYCFlowProperties.

Import SmartKYCFlow.

Lemma step_settled (e : Event) (s : State) : settled s -> settled (step e s).
Proof.
  destruct s as [[] [[]|]], e as [[]| |]; cbn; trivial.
Qed.

Lemma run_settled (es : list Event) (s : State) : settled s -> settled (run es s).
Proof.
  unfold run. revert s. induction es as [|e es IH]; intros s H; [exact H |].
  cbn [fold_left]. apply IH, step_settled, H.
Qed.

Lemma run_complete (es : list Event) (s : State) :
  currentView (run es s) = complete ->
  currentView s = complete \/ In AgentComplete es.
Proof.
  unfold run. revert s. induction es as [|e es IH]; intros s H; [left; exact H |].
  cbn [fold_left] in H. destruct (IH _ H) as [C | C]; [| right; right; exact C].
  destruct s as [[] [[]|]], e as [[]| |]; cbn in C; try discriminate;
    solve [left; reflexivity | right; left; reflexivity].
Qed.

Lemma run_form (es : list Event) (s : State) :
  currentView s = form -> run es s = s.
Proof.
  unfold run. revert s. induction es as [|e es IH]; intros s H; [reflexivity |].
  cbn [fold_left].
  assert (E : step e s = s) by (unfold step; rewrite H; reflexivity).
  rewrite E. apply IH, H.
Qed.

(** X22: from the welcome screen, the chat and the form are entered only
    with the matching preference chosen; the completion screen is reached
    only through the agent's [onComplete]; and once the form is shown the
    flow stays there whatever happens, since the form is given no
    [onComplete]: a user who chose the form never sees the completion
    screen. *)
Theorem smart_flow_completion (es es' : list Event) :
  let s := run es initialState in
  match currentView s with
  | welcome => True
  | chat => userPreference s = Some preferChat
  | form => userPreference s = Some preferForm /\ run es' s = s
  | complete => userPreference s = Some preferChat /\ In AgentComplete es
  end.
Proof.
  cbv zeta.
  pose proof (run_settled es initialState I) as H.
  pose proof (run_complete es initialState) as C.
  pose proof (run_form es' (run es initialState)) as F.
  unfold settled in H.
  destruct (currentView (run es initialState)); try exact H.
  - split; [exact H | exact (F eq_refl)].
  - split; [exact H |]. destruct (C eq_refl) as [D | D]; [discriminate D | exact D].
Qed.

End SmartKYCFlowProperties.
